(** * SRE output formatter: a shallow embedding of [output_formatter.py]

    The formatter turns the free-text answers of the investigation agents
    into one markdown report and asks an LLM for an executive summary.

    Layout of the development:
    - [PyStr]: Python [str] as a sequence of code points, with the few
      methods of [str] that the formatter calls;
    - [PyData]: lists, slices, dictionaries, the exceptions of collaborators;
    - the class [SREOutputFormatter], method by method, and stubs of its
      collaborators;
    - the vocabulary of the properties and the worked examples;
    - the properties of the step extractor, of the executive summary and
      of the two renderers. *)

From Stdlib Require Import List NArith ZArith Bool Lia.
From Stdlib Require Import Strings.String Strings.Ascii Strings.Byte.
From Stdlib Require Import Init.Decimal.
Import ListNotations.

Set Implicit Arguments.

(** ** Python strings *)

Module PyStr.

(** A Python [str] is a sequence of Unicode code points. *)
Definition char := N.
Definition str := list char.

(** String literals of the source are UTF-8 text; [py] decodes such a
    literal into its code points (1 to 4 bytes per code point). *)
Fixpoint utf8_decode (bs : list N) : str :=
  match bs with
  | [] => []
  | b0 :: r0 =>
      if (b0 <? 128)%N then b0 :: utf8_decode r0
      else
        match r0 with
        | [] => []
        | b1 :: r1 =>
            if (b0 <? 224)%N
            then ((b0 - 192) * 64 + (b1 - 128))%N :: utf8_decode r1
            else
              match r1 with
              | [] => []
              | b2 :: r2 =>
                  if (b0 <? 240)%N
                  then ((b0 - 224) * 4096 + (b1 - 128) * 64 + (b2 - 128))%N
                         :: utf8_decode r2
                  else
                    match r2 with
                    | [] => []
                    | b3 :: r3 =>
                        ((b0 - 240) * 262144 + (b1 - 128) * 4096
                         + (b2 - 128) * 64 + (b3 - 128))%N
                          :: utf8_decode r3
                    end
              end
        end
  end.

Definition of_utf8 (s : string) : str :=
  utf8_decode (map Byte.to_N (list_byte_of_string s)).

(** [py "text"] stands for the code points of the literal: the decoding
    is done once, where the literal is written. *)
Notation "'py' s" :=
  (ltac:(let v := eval vm_compute in (of_utf8 s) in exact v))
  (at level 10, s at level 0, only parsing).

(** The character database of the interpreter ([unicodedata]) is not part
    of the repository.  The ASCII range is written out below; what the
    interpreter does with the other code points is a parameter. *)
Class UnicodeData := {
  (** [str.isspace] on a code point above 127 (what [strip] removes) *)
  isspace_nonascii : char -> bool;
  (** [str.isdigit] on a code point above 127 *)
  isdigit_nonascii : char -> bool;
  (** the lowercase mapping of the code point at an index of a string
      (the mapping may look at the neighbours and may give several code
      points) *)
  lower_nonascii : str -> nat -> str;
  (** the titlecase mapping of that code point, used by [title] at the
      start of a word *)
  title_nonascii : str -> nat -> str;
  (** whether a code point above 127 is cased *)
  cased_nonascii : char -> bool
}.

Section Methods.
Context {U : UnicodeData}.

Definition is_ascii (c : char) : bool := (c <? 128)%N.

(** [c.isspace()]: tab, LF, VT, FF, CR, the separators FS GS RS US and
    the blank. *)
Definition isspace (c : char) : bool :=
  if is_ascii c
  then ((9 <=? c) && (c <=? 13) || (28 <=? c) && (c <=? 32))%N
  else isspace_nonascii c.

(** [c.isdigit()] *)
Definition isdigit (c : char) : bool :=
  if is_ascii c then ((48 <=? c) && (c <=? 57))%N else isdigit_nonascii c.

Definition is_ascii_upper (c : char) : bool := ((65 <=? c) && (c <=? 90))%N.
Definition is_ascii_lower (c : char) : bool := ((97 <=? c) && (c <=? 122))%N.
Definition ascii_tolower (c : char) : char :=
  if is_ascii_upper c then (c + 32)%N else c.
Definition ascii_toupper (c : char) : char :=
  if is_ascii_lower c then (c - 32)%N else c.

(** [s.lower()] *)
Fixpoint lower_from (s : str) (i : nat) (rest : str) : str :=
  match rest with
  | [] => []
  | c :: r =>
      (if is_ascii c then [ascii_tolower c] else lower_nonascii s i)
        ++ lower_from s (S i) r
  end.

Definition lower (s : str) : str := lower_from s 0 s.

(** [s.title()]: a character that follows a cased character is lowered,
    any other character is title-cased. *)
Definition iscased (c : char) : bool :=
  if is_ascii c then is_ascii_upper c || is_ascii_lower c
  else cased_nonascii c.

Fixpoint title_from (s : str) (i : nat) (previous_is_cased : bool)
    (rest : str) : str :=
  match rest with
  | [] => []
  | c :: r =>
      (if previous_is_cased
       then if is_ascii c then [ascii_tolower c] else lower_nonascii s i
       else if is_ascii c then [ascii_toupper c] else title_nonascii s i)
        ++ title_from s (S i) (iscased c) r
  end.

Definition title (s : str) : str := title_from s 0 false s.

(** [s.strip()] with no argument *)
Fixpoint lstrip (s : str) : str :=
  match s with
  | [] => []
  | c :: r => if isspace c then lstrip r else s
  end.

Fixpoint rstrip (s : str) : str :=
  match s with
  | [] => []
  | c :: r =>
      match rstrip r with
      | [] => if isspace c then [] else [c]
      | r' => c :: r'
      end
  end.

Definition strip (s : str) : str := rstrip (lstrip s).

End Methods.

(** [s.startswith(prefix)] *)
Fixpoint startswith (s prefix : str) {struct prefix} : bool :=
  match prefix, s with
  | [], _ => true
  | _ :: _, [] => false
  | p :: ps, c :: r => (p =? c)%N && startswith r ps
  end.

(** [s.startswith((p1, ..., pn))] *)
Definition startswith_any (s : str) (prefixes : list str) : bool :=
  existsb (startswith s) prefixes.

(** [needle in s] *)
Fixpoint contains (needle s : str) : bool :=
  startswith s needle
  || match s with
     | [] => false
     | _ :: r => contains needle r
     end.

(** [s.replace(old, new)] for one-character [old] and [new] *)
Definition replace_char (old new : char) (s : str) : str :=
  map (fun c => if (c =? old)%N then new else c) s.

(** [s.split("\n")]: never empty, one more piece than there are LF. *)
Definition LF : char := 10%N.

Fixpoint split_lines (s : str) : list str :=
  match s with
  | [] => [[]]
  | c :: r =>
      if (c =? LF)%N then [] :: split_lines r
      else
        match split_lines r with
        | [] => [[c]]
        | l :: ls => (c :: l) :: ls
        end
  end.

(** [sep.join(parts)] *)
Fixpoint join (sep : str) (parts : list str) : str :=
  match parts with
  | [] => []
  | [x] => x
  | x :: r => x ++ sep ++ join sep r
  end.

(** [s == t] *)
Fixpoint str_eqb (s t : str) : bool :=
  match s, t with
  | [], [] => true
  | a :: s', b :: t' => (a =? b)%N && str_eqb s' t'
  | _, _ => false
  end.

(** [str(i)] for an [int] *)
Fixpoint uint_to_str (d : Decimal.uint) : str :=
  match d with
  | Nil => []
  | D0 r => 48%N :: uint_to_str r
  | D1 r => 49%N :: uint_to_str r
  | D2 r => 50%N :: uint_to_str r
  | D3 r => 51%N :: uint_to_str r
  | D4 r => 52%N :: uint_to_str r
  | D5 r => 53%N :: uint_to_str r
  | D6 r => 54%N :: uint_to_str r
  | D7 r => 55%N :: uint_to_str r
  | D8 r => 56%N :: uint_to_str r
  | D9 r => 57%N :: uint_to_str r
  end.

Definition int_to_str (z : Z) : str :=
  match z with
  | Z0 => [48%N]
  | Zpos p => uint_to_str (Pos.to_uint p)
  | Zneg p => 45%N :: uint_to_str (Pos.to_uint p)
  end.

End PyStr.

Import PyStr.

(** ** Python data *)

Module PyData.

(** Truth value of a [str], of a list and of [None]-or-value. *)
Definition nonempty {A : Type} (l : list A) : bool :=
  match l with
  | [] => false
  | _ :: _ => true
  end.

Definition truthy {A : Type} (o : option (list A)) : bool :=
  match o with
  | None => false
  | Some l => nonempty l
  end.

(** [l[i:]] for an [int] index: a negative index counts from the end. *)
Definition slice_from {A : Type} (l : list A) (i : Z) : list A :=
  if (i <? 0)%Z
  then skipn (Z.to_nat (Z.max 0 (Z.of_nat (List.length l) + i))) l
  else skipn (Z.to_nat i) l.

(** [enumerate(l, start)] *)
Fixpoint enumerate {A : Type} (l : list A) (start : Z) : list (Z * A) :=
  match l with
  | [] => []
  | x :: r => (start, x) :: enumerate r (start + 1)
  end.

(** An instance of [Exception], with its message. *)
Record exn := Exception { exn_message : str }.

(** The outcome of a call: a value, or a raised exception. *)
Inductive result (A : Type) :=
| Return (a : A)
| Raise (e : exn).

Arguments Return {A} a.
Arguments Raise {A} e.

(** [agent_results]: a [dict] in insertion order, from the name of an
    agent to its answer ([None] or a text). *)
Definition AgentResults := list (str * option str).

(** An investigation plan: a [dict] read with [get]; every key may be
    missing.  [other_keys] are the keys the formatter never reads. *)
Record Plan := {
  steps : option (list str);
  complexity : option str;
  reasoning : option str;
  auto_execute : option bool;
  other_keys : list str
}.

Definition empty_plan : Plan :=
  {| steps := None; complexity := None; reasoning := None;
     auto_execute := None; other_keys := [] |}.

(** Truth value of a plan: a [dict] is false when it has no key. *)
Definition plan_truthy (p : Plan) : bool :=
  match steps p, complexity p, reasoning p, auto_execute p, other_keys p with
  | None, None, None, None, [] => false
  | _, _, _, _, _ => true
  end.

(** [d.get(key, default)] *)
Definition get {A : Type} (field : option A) (default : A) : A :=
  match field with
  | Some v => v
  | None => default
  end.

(** [metadata]: the two keys the formatter reads. *)
Record Metadata := {
  plan_step : option Z;
  investigation_plan : option Plan
}.

(** The messages sent to the LLM. *)
Inductive message :=
| SystemMessage (content : str)
| HumanMessage (content : str).

(** What [SREConstants.get_output_formatter_config] returns: a [dict],
    read at the key ["max_tokens"]. *)
Record FormatterConfig := { max_tokens : option Z }.

End PyData.

Import PyData.

(** ** The formatter *)

(** The object: its only attribute is set by [__init__]. *)
Record SREOutputFormatter := { llm_provider : str }.

(** [__init__(llm_provider)]; [env_LLM_PROVIDER] is the value of the
    environment variable [LLM_PROVIDER], [None] when it is not set. *)
Definition __init__ (llm_provider : option str)
    (env_LLM_PROVIDER : option str) : SREOutputFormatter :=
  {| llm_provider :=
       if truthy llm_provider then get llm_provider []
       else get env_LLM_PROVIDER (py "bedrock") |}.

Definition create_formatter (llm_provider : option str)
    (env_LLM_PROVIDER : option str) : SREOutputFormatter :=
  __init__ llm_provider env_LLM_PROVIDER.

Definition NO_RESPONSE : str := py "No response provided".

(** [not result or result == "No response provided"] *)
Definition skipped (result : option str) : bool :=
  negb (truthy result) || str_eqb (get result []) NO_RESPONSE.

Section Pure.
Context {U : UnicodeData}.

(** *** [_extract_steps_from_response] *)

(** The test of the loop body, on a stripped line. *)
Definition is_step_line (line : str) : bool :=
  nonempty line
  && (match line with
      | [] => false
      | c :: _ => isdigit c
      end
      || startswith line (py "-")
      || startswith line (py "•")).

Definition _extract_steps_from_response (response : option str)
  : list str :=
  if negb (truthy response) then []
  else
    let lines := split_lines (get response []) in
    fold_left
      (fun steps line =>
         let line := strip line in
         if is_step_line line then steps ++ [line] else steps)
      lines [].

(** *** [format_investigation_response], the part after the summary *)

Definition ORDINALS : list str :=
  [py "1."; py "2."; py "3."; py "4."; py "5.";
   py "6."; py "7."; py "8."; py "9."].

(** One runbook step, as it is appended to the output. *)
Definition format_step (step : str) : str :=
  let clean_step := strip step in
  if startswith_any clean_step ORDINALS then clean_step
  else py "- " ++ clean_step.

Definition is_runbook_agent (agent_name : str) : bool :=
  contains (py "runbooks") (lower agent_name)
  || contains (py "operational") (lower agent_name).

(** What one turn of the loop over [agent_results.items()] appends. *)
Definition agent_lines (agent_name : str) (result : option str)
  : list str :=
  if skipped result then []
  else
    let text := get result [] in
    let agent_display := title (replace_char 95%N 32%N agent_name) in
    [py "### " ++ agent_display]
      ++ (if is_runbook_agent agent_name
          then
            let steps := _extract_steps_from_response result in
            if nonempty steps
            then [[]; py "**Runbook Steps Found:**"]
                   ++ map format_step steps ++ [[]]
            else [py "- " ++ text; []]
          else [py "- " ++ text; []]).

Definition key_findings_section (agent_results : AgentResults)
  : list str :=
  if nonempty agent_results
  then
    fold_left
      (fun output item => output ++ agent_lines (fst item) (snd item))
      agent_results
      [py "## 🎯 Key Findings"; []]
  else [].

Definition next_steps_section (plan_info : Plan)
    (current_step total_steps : Z) : list str :=
  if plan_truthy plan_info && (current_step <? total_steps)%Z
  then
    let remaining_steps :=
      slice_from (get (steps plan_info) []) current_step in
    [py "## 📋 Next Steps"; []]
      ++ map (fun item => int_to_str (fst item) ++ py ". " ++ snd item)
             (enumerate remaining_steps (current_step + 1))
      ++ [[]]
  else [].

Definition investigation_complete_section (current_step total_steps : Z)
  : list str :=
  if (current_step >=? total_steps)%Z
  then [py "## ✅ Investigation Complete"; [];
        py "All planned investigation steps have been executed."; []]
  else [].

(** [plan or metadata.get("investigation_plan", {})] *)
Definition effective_plan (plan : option Plan) (metadata : Metadata)
  : Plan :=
  match plan with
  | Some p =>
      if plan_truthy p then p
      else get (investigation_plan metadata) empty_plan
  | None => get (investigation_plan metadata) empty_plan
  end.

Definition current_step_of (metadata : Metadata) : Z :=
  (get (plan_step metadata) 0 + 1)%Z.

Definition total_steps_of (plan_info : Plan) : Z :=
  Z.of_nat (List.length (get (steps plan_info) [])).

(** The list [output] at the end of [format_investigation_response],
    given the value of [executive_summary]. *)
Definition investigation_output (query : str)
    (agent_results : AgentResults) (metadata : Metadata)
    (plan : option Plan) (executive_summary : str) : list str :=
  let plan_info := effective_plan plan metadata in
  let current_step := current_step_of metadata in
  let total_steps := total_steps_of plan_info in
  [py "# 🔍 Investigation Results"; []; py "**Query:** " ++ query; []]
    ++ (if nonempty executive_summary then [executive_summary; []] else [])
    ++ key_findings_section agent_results
    ++ next_steps_section plan_info current_step total_steps
    ++ investigation_complete_section current_step total_steps.

(** *** [_generate_fallback_summary] *)

Definition _generate_fallback_summary (query : str)
    (agent_results : AgentResults) : str :=
  py "## 📋 Executive Summary

### 🎯 Key Insights
- **Root Cause**: Investigation findings require analysis
- **Impact**: Service performance may be affected
- **Severity**: Medium

### ⚡ Next Steps
1. **Immediate** (< 1 hour): Review detailed findings below
2. **Short-term** (< 24 hours): Execute recommended remediation steps
3. **Long-term** (< 1 week): Monitor system metrics for improvement
4. **Follow-up**: Schedule post-incident review if applicable".

(** *** [format_plan_approval]: the list [output] *)

Definition plan_approval_output (plan : Plan) (query : str) : list str :=
  let steps := get (steps plan) [] in
  let reasoning :=
    get (reasoning plan) (py "Standard investigation approach") in
  let auto_execute := get (auto_execute plan) false in
  [py "# 📋 Investigation Plan"; [];
   py "**Query:** " ++ query;
   py "**Complexity:** " ++ title (get (complexity plan) (py "unknown"));
   []]
    ++ (if nonempty steps
        then [py "## Investigation Steps"; []]
               ++ map (fun item =>
                         int_to_str (fst item) ++ py ". " ++ snd item)
                      (enumerate steps 1)
               ++ [[]]
        else [])
    ++ [py "## Plan Details"; [];
        py "**Reasoning:** " ++ reasoning;
        py "**Auto-execute:** "
          ++ (if auto_execute then py "Yes" else py "No");
        []]
    ++ [py "## Available Actions"; [];
        py "- Type `proceed` or `yes` to execute the plan";
        py "- Type `modify` to suggest changes";
        py "- Ask specific questions about any step";
        []].

End Pure.

(** ** Effects: collaborators, exceptions, the object *)

Module Eff.
Section Monad.
Variable S : Type.

(** A computation over a state [S] that returns or raises. *)
Definition M (A : Type) : Type := S -> result A * S.

Definition ret {A : Type} (a : A) : M A := fun s => (Return a, s).

Definition bind {A B : Type} (m : M A) (k : A -> M B) : M B :=
  fun s =>
    match m s with
    | (Return a, s') => k a s'
    | (Raise e, s') => (Raise e, s')
    end.

Definition raise {A : Type} (e : exn) : M A := fun s => (Raise e, s).

(** [try: body except Exception as e: handler] *)
Definition try_except {A : Type} (body : M A) (handler : exn -> M A)
  : M A :=
  fun s =>
    match body s with
    | (Return a, s') => (Return a, s')
    | (Raise e, s') => handler e s'
    end.

End Monad.
End Eff.

Notation "x <- c ;; k" := (Eff.bind c (fun x => k))
  (at level 61, c at next level, right associativity).

Section Formatter.
Context {U : UnicodeData}.

(** [World]: everything outside the formatter that a collaborator may
    read or change (the network, the provider, the modules loaded).
    [LLM]: the client object.  [Pref]: one record of user preferences. *)
Variables World LLM Pref : Type.

(** The collaborators, none of which is part of the repository file.
    Each call may raise and may change the world. *)
Record Collaborators := {
  (** [from langchain_core.messages import HumanMessage, SystemMessage] *)
  import_messages : Eff.M World unit;
  (** [SREConstants.get_output_formatter_config(provider)] *)
  get_output_formatter_config : str -> Eff.M World FormatterConfig;
  (** [create_llm_with_error_handling(provider, max_tokens=...)] *)
  create_llm_with_error_handling : str -> Z -> Eff.M World LLM;
  (** [json.dumps(user_preferences, indent=2, default=str)] *)
  json_dumps : list Pref -> Eff.M World str;
  (** [prompt_loader.get_executive_summary_prompts(query, results_text)] *)
  get_executive_summary_prompts : str -> str -> Eff.M World (str * str);
  (** [str(llm.invoke(messages).content)] *)
  invoke : LLM -> list message -> Eff.M World str
}.

Variable C : Collaborators.

(** The state a method runs in: the object and the world. *)
Record State := { self : SREOutputFormatter; world : World }.

Definition M := Eff.M State.

(** A call to a collaborator from a method: the object is out of its
    reach. *)
Definition call {A : Type} (f : Eff.M World A) : M A :=
  fun st =>
    let (r, w) := f (world st) in (r, {| self := self st; world := w |}).

(** [self.llm_provider] *)
Definition self_llm_provider : M str :=
  fun st => (Return (llm_provider (self st)), st).

(** [formatter_config["max_tokens"]] *)
Definition getitem_max_tokens (formatter_config : FormatterConfig)
  : M Z :=
  match max_tokens formatter_config with
  | Some n => Eff.ret n
  | None => Eff.raise (Exception (py "KeyError: 'max_tokens'"))
  end.

(** [_create_llm()], called without keyword arguments.  The calls to
    the logger are left out here and below. *)
Definition _create_llm : M LLM :=
  provider <- self_llm_provider ;;
  formatter_config <- call (get_output_formatter_config C provider) ;;
  n <- getitem_max_tokens formatter_config ;;
  call (create_llm_with_error_handling C provider n).

(** The loop that fills [formatted_results]. *)
Definition formatted_results_of (agent_results : AgentResults)
  : list str :=
  fold_left
    (fun formatted_results item =>
       let agent_name := fst item in
       let result := snd item in
       if truthy result && negb (str_eqb (get result []) NO_RESPONSE)
       then formatted_results
              ++ [py "**" ++ agent_name ++ py ":**" ++ [LF]
                    ++ get result [] ++ [LF]]
       else formatted_results)
    agent_results [].

(** The body of the [try] in [_generate_executive_summary]. *)
Definition summary_try (query : str) (agent_results : AgentResults)
    (user_preferences : option (list Pref)) : M str :=
  _ <- call (import_messages C) ;;
  llm <- _create_llm ;;
  let formatted_results := formatted_results_of agent_results in
  let results_text := join [LF] formatted_results in
  results_text <-
    (if truthy user_preferences
     then
       prefs_text <- call (json_dumps C (get user_preferences [])) ;;
       Eff.ret (results_text ++ [LF; LF] ++ py "**User Preferences:**"
                  ++ [LF] ++ prefs_text ++ [LF])
     else Eff.ret results_text) ;;
  prompts <- call (get_executive_summary_prompts C query results_text) ;;
  let system_prompt := fst prompts in
  let user_prompt := snd prompts in
  let messages :=
    [SystemMessage system_prompt; HumanMessage user_prompt] in
  content <- call (invoke C llm messages) ;;
  Eff.ret (strip content).

Definition _generate_executive_summary (query : str)
    (agent_results : AgentResults) (metadata : Metadata)
    (user_preferences : option (list Pref)) : M str :=
  if negb (nonempty agent_results) then Eff.ret []
  else
    Eff.try_except
      (summary_try query agent_results user_preferences)
      (fun e => Eff.ret (_generate_fallback_summary query agent_results)).

Definition format_investigation_response (query : str)
    (agent_results : AgentResults) (metadata : Metadata)
    (plan : option Plan) (user_preferences : option (list Pref))
  : M str :=
  executive_summary <-
    _generate_executive_summary query agent_results metadata
      user_preferences ;;
  Eff.ret
    (join [LF]
       (investigation_output query agent_results metadata plan
          executive_summary)).

Definition format_plan_approval (plan : Plan) (query : str) : M str :=
  Eff.ret (join [LF] (plan_approval_output plan query)).

End Formatter.

(** ** Stubs of the collaborators *)

Module Mock.

(** Tables that leave every code point above 127 alone.  They stand in
    for the interpreter's tables on ASCII inputs, where the tables are
    never looked at. *)
Definition ascii_tables : UnicodeData :=
  {| isspace_nonascii := fun _ => false;
     isdigit_nonascii := fun _ => false;
     lower_nonascii := fun s i => firstn 1 (skipn i s);
     title_nonascii := fun s i => firstn 1 (skipn i s);
     cased_nonascii := fun _ => false |}.

(** A provider whose client answers every request with [answer], or
    refuses every request when [answer] is [None].  The world counts the
    requests the client received. *)
Definition llm (answer : option str) : Collaborators nat unit unit :=
  {| import_messages := Eff.ret tt;
     get_output_formatter_config :=
       fun _ => Eff.ret {| max_tokens := Some 1000%Z |};
     create_llm_with_error_handling := fun _ _ => Eff.ret tt;
     json_dumps := fun _ => Eff.ret (py "[]");
     get_executive_summary_prompts :=
       fun query results_text =>
         Eff.ret (py "You are an SRE.", query ++ [LF] ++ results_text);
     invoke :=
       fun _ _ requests =>
         (match answer with
          | Some a => Return a
          | None => Raise (Exception (py "connection refused"))
          end, S requests) |}.

Definition formatter : SREOutputFormatter :=
  create_formatter None None.

Definition state0 : State nat :=
  {| self := formatter; world := 0 |}.

End Mock.

(** ** The vocabulary of the properties *)

Section Vocabulary.
Context {U : UnicodeData}.

(** *** The step extractor, in the words of the specification *)

(** The lines of the text, trimmed; those that are not empty; those whose
    first character is a digit or that start with a dash or with the
    bullet. *)
Definition first_char_is_digit (line : str) : bool :=
  match line with
  | [] => false
  | c :: _ => isdigit c
  end.

Definition step_like (line : str) : bool :=
  first_char_is_digit line
  || startswith line (py "-")
  || startswith line (py "•").

Definition trimmed_lines (text : str) : list str :=
  map strip (split_lines text).

Definition extract_steps_spec (response : option str) : list str :=
  match response with
  | None => []
  | Some text => filter step_like (filter nonempty (trimmed_lines text))
  end.

(** A text that does not begin with white space. *)
Definition starts_clean (s : str) : Prop :=
  match s with
  | [] => True
  | c :: _ => isspace c = false
  end.

(** *** The parts of the investigation report *)

Definition HEADER (query : str) : list str :=
  [py "# 🔍 Investigation Results"; []; py "**Query:** " ++ query; []].

Definition summary_lines (executive_summary : str) : list str :=
  if nonempty executive_summary then [executive_summary; []] else [].

Definition NEXT_STEPS : str := py "## 📋 Next Steps".
Definition COMPLETE : str := py "## ✅ Investigation Complete".
Definition KEY_FINDINGS : str := py "## 🎯 Key Findings".
Definition STEPS_FOUND : str := py "**Runbook Steps Found:**".

(** Rendering [i. step] for each remaining step. *)
Definition numbered (item : Z * str) : str :=
  int_to_str (fst item) ++ py ". " ++ snd item.


(** Every answer empty, [None] or the sentinel text. *)
Definition all_skipped (agent_results : AgentResults) : Prop :=
  Forall (fun item => skipped (snd item) = true) agent_results.

(** *** The parts of the plan approval request *)

Definition PLAN_TITLE : str := py "# 📋 Investigation Plan".
Definition INVESTIGATION_STEPS : str := py "## Investigation Steps".
Definition PLAN_DETAILS : str := py "## Plan Details".
Definition AVAILABLE_ACTIONS : str := py "## Available Actions".

Definition plan_header (plan : Plan) (query : str) : list str :=
  [PLAN_TITLE; [];
   py "**Query:** " ++ query;
   py "**Complexity:** " ++ title (get (complexity plan) (py "unknown"));
   []].

Definition plan_details (plan : Plan) : list str :=
  [PLAN_DETAILS; [];
   py "**Reasoning:** "
     ++ get (reasoning plan) (py "Standard investigation approach");
   py "**Auto-execute:** "
     ++ (if get (auto_execute plan) false then py "Yes" else py "No");
   []].

Definition plan_actions : list str :=
  [AVAILABLE_ACTIONS; [];
   py "- Type `proceed` or `yes` to execute the plan";
   py "- Type `modify` to suggest changes";
   py "- Ask specific questions about any step";
   []].

(** *** The fixed fallback summary, line by line *)

Definition FALLBACK_SUMMARY : str :=
  join [LF]
    [py "## 📋 Executive Summary";
     [];
     py "### 🎯 Key Insights";
     py "- **Root Cause**: Investigation findings require analysis";
     py "- **Impact**: Service performance may be affected";
     py "- **Severity**: Medium";
     [];
     py "### ⚡ Next Steps";
     py "1. **Immediate** (< 1 hour): Review detailed findings below";
     py "2. **Short-term** (< 24 hours): Execute recommended remediation steps";
     py "3. **Long-term** (< 1 week): Monitor system metrics for improvement";
     py "4. **Follow-up**: Schedule post-incident review if applicable"].

End Vocabulary.

(** *** How collaborators and methods behave *)

Section Behaviours.
Variables World LLM Pref : Type.

(** A computation that raises in every state. *)
Definition fails {S A : Type} (m : Eff.M S A) : Prop :=
  forall s, exists e s', m s = (Raise e, s').

(** A collaborator whose outcome does not depend on the world. *)
Definition stateless {A : Type} (f : Eff.M World A) : Prop :=
  forall w w', fst (f w) = fst (f w').

(** Deterministic collaborators: each of them gives the same outcome
    whenever it is asked the same thing. *)
Definition deterministic (C : Collaborators World LLM Pref) : Prop :=
  stateless (import_messages C)
  /\ (forall provider, stateless (get_output_formatter_config C provider))
  /\ (forall provider n,
        stateless (create_llm_with_error_handling C provider n))
  /\ (forall prefs, stateless (json_dumps C prefs))
  /\ (forall query text,
        stateless (get_executive_summary_prompts C query text))
  /\ (forall llm messages, stateless (invoke C llm messages)).

(** A method whose outcome depends on the object alone and that leaves
    the object as it found it. *)
Definition pure_in_self {A : Type} (m : M World A) : Prop :=
  forall st st',
    self st = self st' ->
    fst (m st) = fst (m st') /\ self (snd (m st)) = self st.

End Behaviours.

(** ** Worked examples *)

(** The example of the specification: two agents, one of them silent,
    and a plan of three steps of which the first is done. *)
Module Checkout.

Definition query : str := py "Why is checkout slow?".

Definition agent_results : AgentResults :=
  [(py "runbooks_agent", Some (py "1. Check CPU" ++ [LF] ++ py "2. Check DB"));
   (py "logs_agent", Some (py "No response provided"))].

Definition metadata : Metadata :=
  {| plan_step := Some 0%Z; investigation_plan := None |}.

Definition plan : Plan :=
  {| steps := Some [py "Check CPU"; py "Check DB"; py "Check network"];
     complexity := Some (py "medium");
     reasoning := None;
     auto_execute := None;
     other_keys := [] |}.

(** The document for this input when the LLM answers "Summary.". *)
Definition document : str :=
  py "# 🔍 Investigation Results

**Query:** Why is checkout slow?

Summary.

## 🎯 Key Findings

### Runbooks Agent

**Runbook Steps Found:**
1. Check CPU
2. Check DB

## 📋 Next Steps

2. Check DB
3. Check network
".

End Checkout.

(** An agent named [runbook_agent], without the final s. *)
Module Runbook.

Definition agent_results : AgentResults :=
  [(py "runbook_agent", Some (py "1. Check CPU" ++ [LF] ++ py "2. Check DB"))].

Definition document : str :=
  py "# 🔍 Investigation Results

**Query:** Why is checkout slow?

Summary.

## 🎯 Key Findings

### Runbook Agent
- 1. Check CPU
2. Check DB

## ✅ Investigation Complete

All planned investigation steps have been executed.
".

End Runbook.

(** One agent, and it has nothing to say. *)
Module Silent.

Definition agent_results : AgentResults :=
  [(py "logs_agent", Some (py "No response provided"))].

Definition document : str :=
  py "# 🔍 Investigation Results

**Query:** Why is checkout slow?

Summary.

## 🎯 Key Findings

## ✅ Investigation Complete

All planned investigation steps have been executed.
".

End Silent.

(** The document of the example when the provider refuses every
    request. *)
Module Outage.

Definition document : str :=
  py "# 🔍 Investigation Results

**Query:** Why is checkout slow?

## 📋 Executive Summary

### 🎯 Key Insights
- **Root Cause**: Investigation findings require analysis
- **Impact**: Service performance may be affected
- **Severity**: Medium

### ⚡ Next Steps
1. **Immediate** (< 1 hour): Review detailed findings below
2. **Short-term** (< 24 hours): Execute recommended remediation steps
3. **Long-term** (< 1 week): Monitor system metrics for improvement
4. **Follow-up**: Schedule post-incident review if applicable

## 🎯 Key Findings

### Runbooks Agent

**Runbook Steps Found:**
1. Check CPU
2. Check DB

## 📋 Next Steps

2. Check DB
3. Check network
".

End Outage.

(** The formatter of the examples: the LLM answers "Summary.". *)
Definition example_run (agent_results : AgentResults) (metadata : Metadata)
    (plan : option Plan) : M nat str :=
  format_investigation_response (U := Mock.ascii_tables)
    (Mock.llm (Some (py "Summary.")))
    Checkout.query agent_results metadata plan None.

(** ** Further vocabulary *)

Section MoreVocabulary.
Context {U : UnicodeData}.

(** A text with no line feed in it. *)
Definition one_line (s : str) : Prop := ~ In LF s.

(** A text that does not end with white space. *)
Definition ends_clean (s : str) : Prop := starts_clean (List.rev s).

(** A list of lines that is empty or ends with a blank line. *)
Definition ends_blank (lines : list str) : Prop :=
  lines = [] \/ exists front, lines = front ++ [[]].

(** An agent whose answer is shown. *)
Definition contributes (item : str * option str) : bool :=
  negb (skipped (snd item)).

(** The block of one agent in the context text handed to the prompts. *)
Definition context_block (item : str * option str) : str :=
  py "**" ++ fst item ++ py ":**" ++ [LF] ++ get (snd item) [] ++ [LF].

(** The subheading of an agent in the findings. *)
Definition subheading (agent_name : str) : str :=
  py "### " ++ title (replace_char 95%N 32%N agent_name).

(** The two lines that show the [auto_execute] flag. *)
Definition YES_LINE : str := py "**Auto-execute:** Yes".
Definition NO_LINE : str := py "**Auto-execute:** No".

(** A text that begins with one digit from 1 to 9 and a full stop. *)
Definition single_digit_ordinal (s : str) : Prop :=
  exists d rest, s = d :: 46%N :: rest /\ (49 <= d <= 57)%N.

End MoreVocabulary.

(** *** Counting the requests to the LLM *)

Section Counting.
Variables World LLM Pref : Type.

(** A collaborator that leaves the counter alone. *)
Definition uncounted {A : Type} (f : Eff.M World A)
  : Eff.M (World * nat) A :=
  fun wn => let (r, w) := f (fst wn) in (r, (w, snd wn)).

(** The collaborators [C], with a counter of the calls to [invoke] kept
    beside their world. *)
Definition counted (C : Collaborators World LLM Pref)
  : Collaborators (World * nat) LLM Pref :=
  {| import_messages := uncounted (import_messages C);
     get_output_formatter_config :=
       fun provider => uncounted (get_output_formatter_config C provider);
     create_llm_with_error_handling :=
       fun provider n =>
         uncounted (create_llm_with_error_handling C provider n);
     json_dumps := fun prefs => uncounted (json_dumps C prefs);
     get_executive_summary_prompts :=
       fun query text =>
         uncounted (get_executive_summary_prompts C query text);
     invoke :=
       fun llm messages wn =>
         let (r, w) := invoke C llm messages (fst wn) in
         (r, (w, S (snd wn))) |}.

Definition invocations (st : State (World * nat)) : nat :=
  snd (world st).

(** A method that asks the LLM at most [k] times. *)
Definition asks_at_most {A : Type} (k : nat) (m : M (World * nat) A)
  : Prop :=
  forall st,
    invocations st <= invocations (snd (m st)) <= invocations st + k.

(** The state without the counter. *)
Definition forget (st : State (World * nat)) : State World :=
  {| self := self st; world := fst (world st) |}.

(** A method run with the counter does what it does without it. *)
Definition tracks {A : Type} (counting : M (World * nat) A)
    (plain : M World A) : Prop :=
  forall st,
    fst (counting st) = fst (plain (forget st))
    /\ forget (snd (counting st)) = snd (plain (forget st)).

(** A method that raises in every state without asking the LLM. *)
Definition fails_unasked {A : Type} (m : M (World * nat) A) : Prop :=
  forall st,
    exists e st1, m st = (Raise e, st1) /\ invocations st1 = invocations st.

End Counting.

(** A provider whose configuration has no token limit. *)
Module Unlimited.

Definition collaborators : Collaborators nat unit unit :=
  {| import_messages := Eff.ret tt;
     get_output_formatter_config :=
       fun _ requests => (Return {| max_tokens := None |}, S requests);
     create_llm_with_error_handling := fun _ _ => Eff.ret tt;
     json_dumps := fun _ => Eff.ret (py "[]");
     get_executive_summary_prompts :=
       fun query results_text => Eff.ret (py "You are an SRE.", query);
     invoke := fun _ _ requests => (Return (py "Summary."), S requests) |}.

End Unlimited.

(** ** Lemmas on strings and lists *)

Section StringLemmas.
Context {U : UnicodeData}.

Lemma fold_left_app_flat_map (A B : Type) (f : A -> list B) (l : list A)
    (init : list B) :
  fold_left (fun acc x => acc ++ f x) l init = init ++ flat_map f l.
Proof.
  revert init; induction l as [|x l IH]; intros init; simpl.
  - now rewrite app_nil_r.
  - now rewrite IH, app_assoc.
Qed.

Lemma fold_left_cond_app (A B : Type) (c : A -> bool) (g : A -> B)
    (l : list A) (init : list B) :
  fold_left (fun acc x => if c x then acc ++ [g x] else acc) l init
  = init ++ flat_map (fun x => if c x then [g x] else []) l.
Proof.
  revert init; induction l as [|x l IH]; intros init; simpl.
  - now rewrite app_nil_r.
  - rewrite IH. destruct (c x); [now rewrite <- app_assoc | reflexivity].
Qed.

Lemma nonempty_true (A : Type) (l : list A) :
  nonempty l = true <-> l <> [].
Proof. destruct l; simpl; split; congruence. Qed.

Lemma nonempty_false (A : Type) (l : list A) :
  nonempty l = false <-> l = [].
Proof. destruct l; simpl; split; congruence. Qed.

Lemma str_eqb_eq (s t : str) : str_eqb s t = true <-> s = t.
Proof.
  revert t; induction s as [|a s IH]; intros [|b t]; simpl;
    try (split; congruence).
  rewrite andb_true_iff, N.eqb_eq, IH.
  split; [intros [-> ->]; reflexivity | intros H; injection H; auto].
Qed.

Lemma str_eqb_neq (s t : str) : str_eqb s t = false <-> s <> t.
Proof.
  rewrite <- str_eqb_eq. destruct (str_eqb s t); split; congruence.
Qed.

(** [startswith] and [contains] against their meaning on lists. *)
Lemma startswith_spec (s prefix : str) :
  startswith s prefix = true <-> exists rest, s = prefix ++ rest.
Proof.
  revert s; induction prefix as [|p ps IH]; intros s; simpl.
  - split; [intros _; now exists s | reflexivity].
  - destruct s as [|c r].
    + split; [discriminate | intros [rest H]; discriminate].
    + rewrite andb_true_iff, N.eqb_eq, IH. split.
      * intros [-> [rest ->]]. now exists rest.
      * intros [rest H]. injection H as -> ->. split; [reflexivity|].
        now exists rest.
Qed.

Lemma contains_spec (needle s : str) :
  contains needle s = true <-> exists a b, s = a ++ needle ++ b.
Proof.
  induction s as [|c r IH].
  - simpl. rewrite orb_false_r, startswith_spec. split.
    + intros [rest H]. exists [], rest. exact H.
    + intros [a [b H]]. destruct a; [now exists b | discriminate].
  - cbn [contains]. rewrite orb_true_iff, startswith_spec, IH. split.
    + intros [[rest H] | [a [b H]]].
      * exists [], rest. exact H.
      * exists (c :: a), b. now rewrite H.
    + intros [[|a0 a] [b H]].
      * left. now exists b.
      * right. injection H as -> ->. now exists a, b.
Qed.

(** A part handed to [join] is a substring of the joined text. *)
Lemma In_join_contains (sep x : str) (parts : list str) :
  In x parts -> contains x (join sep parts) = true.
Proof.
  intros H. apply contains_spec.
  induction parts as [|y parts IH]; [contradiction|].
  destruct H as [-> | H].
  - destruct parts as [|z parts].
    + exists [], []. simpl. now rewrite app_nil_r.
    + exists [], (sep ++ join sep (z :: parts)). reflexivity.
  - destruct (IH H) as [a [b E]].
    destruct parts as [|z parts]; [contradiction|].
    exists (y ++ sep ++ a), b.
    change (join sep (y :: z :: parts))
      with (y ++ sep ++ join sep (z :: parts)).
    rewrite E. now rewrite <- !app_assoc.
Qed.

(** [split] and [join] on LF are inverse. *)
Lemma split_lines_nonempty (s : str) : split_lines s <> [].
Proof.
  induction s as [|c r IH]; simpl; [discriminate|].
  destruct (c =? LF)%N; [discriminate|].
  destruct (split_lines r); discriminate.
Qed.

Lemma join_split_lines (s : str) : join [LF] (split_lines s) = s.
Proof.
  induction s as [|c r IH]; [reflexivity|].
  simpl. pose proof (split_lines_nonempty r) as NE.
  destruct (split_lines r) as [|l ls]; [congruence|].
  destruct (c =? LF)%N eqn:E.
  - apply N.eqb_eq in E. subst c.
    change (join [LF] ([] :: l :: ls)) with (LF :: join [LF] (l :: ls)).
    now rewrite IH.
  - rewrite <- IH. destruct ls; reflexivity.
Qed.

(** [strip] is idempotent: a stripped line is handed on as it is. *)
Lemma lstrip_starts_clean (s : str) : starts_clean (lstrip s).
Proof.
  induction s as [|c r IH]; simpl; [exact I|].
  destruct (isspace c) eqn:E; [exact IH | exact E].
Qed.

Lemma lstrip_fixed (s : str) : starts_clean s -> lstrip s = s.
Proof. destruct s as [|c r]; simpl; [reflexivity | now intros ->]. Qed.

Lemma rstrip_starts_clean (s : str) :
  starts_clean s -> starts_clean (rstrip s).
Proof.
  destruct s as [|c r]; simpl; [exact (fun H => H)|].
  intros H. destruct (rstrip r); [rewrite H|]; exact H.
Qed.

Lemma rstrip_idempotent (s : str) : rstrip (rstrip s) = rstrip s.
Proof.
  induction s as [|c r IH]; [reflexivity|].
  simpl. destruct (rstrip r) as [|d r'] eqn:E.
  - destruct (isspace c) eqn:Ec; [reflexivity|].
    simpl. now rewrite Ec.
  - change (rstrip (c :: d :: r'))
      with (match rstrip (d :: r') with
            | [] => if isspace c then [] else [c]
            | r0 => c :: r0
            end).
    now rewrite IH.
Qed.

Lemma strip_idempotent (s : str) : strip (strip s) = strip s.
Proof.
  unfold strip.
  rewrite (lstrip_fixed (rstrip (lstrip s))).
  - apply rstrip_idempotent.
  - apply rstrip_starts_clean, lstrip_starts_clean.
Qed.

(** The decimal text of an integer has only digits and the sign. *)
Lemma uint_to_str_digits (d : Decimal.uint) (c : char) :
  In c (uint_to_str d) -> (48 <= c <= 57)%N.
Proof.
  induction d; simpl; try contradiction;
    (intros [<- | H]; [lia | exact (IHd H)]).
Qed.

Lemma int_to_str_chars (z : Z) (c : char) :
  In c (int_to_str z) -> c = 45%N \/ (48 <= c <= 57)%N.
Proof.
  destruct z; simpl.
  - intros [<- | []]. right; lia.
  - intros H. right. eapply uint_to_str_digits, H.
  - intros [<- | H]; [now left | right; eapply uint_to_str_digits, H].
Qed.

(** A numbered line [i. step] begins with a digit, the sign or the dot. *)
Lemma numbered_line_head (z : Z) (rest : str) :
  exists c tail,
    int_to_str z ++ py ". " ++ rest = c :: tail
    /\ (c = 45%N \/ c = 46%N \/ (48 <= c <= 57)%N).
Proof.
  destruct (int_to_str z) as [|c t] eqn:E.
  - exists 46%N, (32%N :: rest). split; [reflexivity | auto].
  - exists c, (t ++ py ". " ++ rest). split; [reflexivity|].
    destruct (int_to_str_chars z c) as [H | H];
      [rewrite E; now left | auto | auto].
Qed.

End StringLemmas.

(** ** The step extractor *)

Section StepExtractor.
Context {U : UnicodeData}.

Lemma is_step_line_split (line : str) :
  is_step_line line = nonempty line && step_like line.
Proof. reflexivity. Qed.

Lemma extract_loop (lines : list str) (acc : list str) :
  fold_left
    (fun steps line =>
       let line := strip line in
       if is_step_line line then steps ++ [line] else steps)
    lines acc
  = acc ++ filter step_like (filter nonempty (map strip lines)).
Proof.
  revert acc; induction lines as [|l lines IH]; intros acc; simpl.
  - now rewrite app_nil_r.
  - rewrite IH, is_step_line_split.
    destruct (nonempty (strip l)); simpl; [|reflexivity].
    destruct (step_like (strip l)); simpl; [|reflexivity].
    now rewrite <- app_assoc.
Qed.

Lemma filter_step_like (l : list str) :
  filter step_like (filter nonempty l) = filter is_step_line l.
Proof.
  induction l as [|x l IH]; [reflexivity|].
  simpl. rewrite is_step_line_split.
  destruct (nonempty x); simpl; [|exact IH].
  destruct (step_like x); [now rewrite IH | exact IH].
Qed.

Lemma extract_steps_filter (text : str) :
  _extract_steps_from_response (Some text)
  = filter is_step_line (trimmed_lines text).
Proof.
  unfold _extract_steps_from_response, trimmed_lines.
  destruct text as [|c r]; [reflexivity|].
  cbn [truthy nonempty negb get].
  rewrite extract_loop. apply filter_step_like.
Qed.

Lemma step_like_spec (line : str) :
  step_like line = true
  <-> (exists c rest, line = c :: rest /\ isdigit c = true)
      \/ (exists rest, line = py "-" ++ rest)
      \/ (exists rest, line = py "•" ++ rest).
Proof.
  unfold step_like. rewrite !orb_true_iff, !startswith_spec.
  split.
  - intros [[H | H] | H]; [left | right; left; exact H | right; right; exact H].
    destruct line as [|c rest]; [discriminate|]. now exists c, rest.
  - intros [[c [rest [-> H]]] | [H | H]]; auto.
Qed.

(** C6: [_extract_steps_from_response] returns the trimmed lines of the
    input that are not empty and that begin with a digit, a dash or the
    bullet, each as trimmed and in the order of the lines; on [None] and
    on the empty text it returns the empty list. *)
Theorem C6_extract_steps_exact :
  forall response : option str,
    _extract_steps_from_response response = extract_steps_spec response
    /\ _extract_steps_from_response None = []
    /\ _extract_steps_from_response (Some []) = []
    /\ (forall text step,
          response = Some text ->
          (In step (_extract_steps_from_response response)
           <-> exists line,
                 In line (split_lines text)
                 /\ step = strip line
                 /\ step <> []
                 /\ ((exists c rest, step = c :: rest /\ isdigit c = true)
                     \/ (exists rest, step = py "-" ++ rest)
                     \/ (exists rest, step = py "•" ++ rest)))).
Proof.
  intros response.
  assert (E : _extract_steps_from_response response
              = extract_steps_spec response).
  { destruct response as [text|]; [|reflexivity].
    unfold _extract_steps_from_response, extract_steps_spec, trimmed_lines.
    destruct text as [|c r]; [reflexivity|].
    cbn [truthy nonempty negb get]. now rewrite extract_loop. }
  split; [exact E|]. split; [reflexivity|]. split; [reflexivity|].
  intros text step ->. rewrite E. unfold extract_steps_spec, trimmed_lines.
  rewrite !filter_In, in_map_iff, nonempty_true, step_like_spec.
  split.
  - intros [[[line [<- Hin]] Hne] Hs]. exists line. auto.
  - intros [line [Hin [-> [Hne Hs]]]].
    split; [split; [now exists line | exact Hne] | exact Hs].
Qed.

End StepExtractor.

(** ** The executive summary *)

Section Summary.
Context {U : UnicodeData}.
Variables World LLM Pref : Type.
Variable C : Collaborators World LLM Pref.

Lemma fallback_summary_fixed (query : str) (agent_results : AgentResults) :
  _generate_fallback_summary query agent_results = FALLBACK_SUMMARY.
Proof. vm_compute. reflexivity. Qed.

(** With a non-empty [agent_results] the method is its [try] block. *)
Lemma generate_summary_try (query : str) (agent_results : AgentResults)
    (metadata : Metadata) (prefs : option (list Pref)) (st : State World) :
  agent_results <> [] ->
  _generate_executive_summary C query agent_results metadata prefs st
  = match summary_try C query agent_results prefs st with
    | (Return s, st1) => (Return s, st1)
    | (Raise _, st1) => (Return FALLBACK_SUMMARY, st1)
    end.
Proof.
  intros NE. unfold _generate_executive_summary.
  destruct agent_results as [|item rest]; [congruence|].
  cbn [nonempty negb]. unfold Eff.try_except.
  destruct (summary_try C query (item :: rest) prefs st) as [[s|e] st1];
    [reflexivity|].
  unfold Eff.ret. now rewrite fallback_summary_fixed.
Qed.

(** The method returns in every state and for every collaborator. *)
Lemma generate_summary_returns (query : str) (agent_results : AgentResults)
    (metadata : Metadata) (prefs : option (list Pref)) (st : State World) :
  exists s st1,
    _generate_executive_summary C query agent_results metadata prefs st
    = (Return s, st1).
Proof.
  destruct agent_results as [|item rest].
  - now exists [], st.
  - rewrite generate_summary_try by discriminate.
    destruct (summary_try C query (item :: rest) prefs st) as [[s|e] st1];
      eauto.
Qed.

Lemma format_investigation_response_returns (query : str)
    (agent_results : AgentResults) (metadata : Metadata)
    (plan : option Plan) (prefs : option (list Pref)) (st : State World) :
  exists summary st1,
    _generate_executive_summary C query agent_results metadata prefs st
    = (Return summary, st1)
    /\ format_investigation_response C query agent_results metadata plan
         prefs st
       = (Return
            (join [LF]
               (investigation_output query agent_results metadata plan
                  summary)),
          st1).
Proof.
  destruct (generate_summary_returns query agent_results metadata prefs st)
    as [s [st1 E]].
  exists s, st1. split; [exact E|].
  unfold format_investigation_response, Eff.bind. now rewrite E.
Qed.

End Summary.

(** *** Running a method step by step *)

Section Steps.
Variables World LLM Pref : Type.

Lemma bind_fails_l (S A B : Type) (m : Eff.M S A) (k : A -> Eff.M S B) :
  fails m -> fails (x <- m ;; k x).
Proof.
  intros H s. unfold Eff.bind. destruct (H s) as [e [s' ->]]. eauto.
Qed.

Lemma bind_fails_r (S A B : Type) (m : Eff.M S A) (k : A -> Eff.M S B) :
  (forall a, fails (k a)) -> fails (x <- m ;; k x).
Proof.
  intros H s. unfold Eff.bind.
  destruct (m s) as [[a|e] s']; [apply H | eauto].
Qed.

Lemma call_fails (A : Type) (f : Eff.M World A) :
  fails f -> fails (call f).
Proof.
  intros H st. unfold call. destruct (H (world st)) as [e [w ->]]. eauto.
Qed.

Lemma bind_returns (S A B : Type) (m : Eff.M S A) (k : A -> Eff.M S B)
    (s s' : S) (b : B) :
  (x <- m ;; k x) s = (Return b, s') ->
  exists a s1, m s = (Return a, s1) /\ k a s1 = (Return b, s').
Proof.
  unfold Eff.bind. destruct (m s) as [[a|e] s1]; [eauto | discriminate].
Qed.

Lemma bind_step (S A B : Type) (m : Eff.M S A) (k : A -> Eff.M S B)
    (s s1 : S) (a : A) :
  m s = (Return a, s1) -> (x <- m ;; k x) s = k a s1.
Proof. unfold Eff.bind. now intros ->. Qed.

Lemma call_returns (A : Type) (f : Eff.M World A) (st st1 : State World)
    (a : A) :
  call f st = (Return a, st1) ->
  f (world st) = (Return a, world st1) /\ self st1 = self st.
Proof.
  unfold call. destruct (f (world st)) as [r w].
  intros H. injection H as -> <-. auto.
Qed.

Lemma call_step (A : Type) (f : Eff.M World A) (st : State World)
    (a : A) (w : World) :
  f (world st) = (Return a, w) ->
  call f st = (Return a, {| self := self st; world := w |}).
Proof. unfold call. now intros ->. Qed.

End Steps.

Section SummaryProperties.
Context {U : UnicodeData}.
Variables World LLM Pref : Type.
Variable C : Collaborators World LLM Pref.

Lemma summary_try_fails_create (query : str) (agent_results : AgentResults)
    (prefs : option (list Pref)) :
  (forall provider n, fails (create_llm_with_error_handling C provider n)) ->
  fails (summary_try C query agent_results prefs).
Proof.
  intros H. unfold summary_try.
  apply bind_fails_r; intros _. apply bind_fails_l.
  unfold _create_llm.
  apply bind_fails_r; intros provider.
  apply bind_fails_r; intros formatter_config.
  apply bind_fails_r; intros n.
  apply call_fails, H.
Qed.

Lemma summary_try_fails_prompts (query : str) (agent_results : AgentResults)
    (prefs : option (list Pref)) :
  (forall q text, fails (get_executive_summary_prompts C q text)) ->
  fails (summary_try C query agent_results prefs).
Proof.
  intros H. unfold summary_try.
  apply bind_fails_r; intros _.
  apply bind_fails_r; intros llm. cbv zeta.
  apply bind_fails_r; intros results_text.
  apply bind_fails_l, call_fails, H.
Qed.

Lemma summary_try_fails_invoke (query : str) (agent_results : AgentResults)
    (prefs : option (list Pref)) :
  (forall llm messages, fails (invoke C llm messages)) ->
  fails (summary_try C query agent_results prefs).
Proof.
  intros H. unfold summary_try.
  apply bind_fails_r; intros _.
  apply bind_fails_r; intros llm. cbv zeta.
  apply bind_fails_r; intros results_text.
  apply bind_fails_r; intros prompts.
  apply bind_fails_l, call_fails, H.
Qed.

Lemma create_llm_step (st : State World) (formatter_config : FormatterConfig)
    (w2 w3 : World) (n : Z) (llm : LLM) :
  get_output_formatter_config C (llm_provider (self st)) (world st)
  = (Return formatter_config, w2) ->
  max_tokens formatter_config = Some n ->
  create_llm_with_error_handling C (llm_provider (self st)) n w2
  = (Return llm, w3) ->
  _create_llm C st = (Return llm, {| self := self st; world := w3 |}).
Proof.
  intros H2 H3 H4. unfold _create_llm.
  erewrite bind_step by reflexivity.
  erewrite bind_step by (apply call_step; exact H2).
  unfold getitem_max_tokens. rewrite H3.
  erewrite bind_step by reflexivity.
  unfold call. cbn [self world]. now rewrite H4.
Qed.

Lemma join_eight (a b c d e f g h : str) (tail : list str) :
  join [LF] (a :: b :: c :: d :: e :: f :: g :: h :: tail)
  = a ++ [LF] ++ b ++ [LF] ++ c ++ [LF] ++ d ++ [LF] ++ e ++ [LF]
      ++ f ++ [LF] ++ g ++ [LF] ++ join [LF] (h :: tail).
Proof. reflexivity. Qed.

Lemma fallback_nonempty : nonempty FALLBACK_SUMMARY = true.
Proof. vm_compute. reflexivity. Qed.

(** The lines of a report whose summary is the fallback text, for a
    non-empty [agent_results]. *)
Lemma fallback_report_lines (query : str) (agent_results : AgentResults)
    (metadata : Metadata) (plan : option Plan) :
  agent_results <> [] ->
  investigation_output query agent_results metadata plan FALLBACK_SUMMARY
  = py "# 🔍 Investigation Results" :: []
      :: (py "**Query:** " ++ query) :: []
      :: FALLBACK_SUMMARY :: []
      :: KEY_FINDINGS :: []
      :: flat_map (fun item => agent_lines (fst item) (snd item))
           agent_results
           ++ next_steps_section (effective_plan plan metadata)
                (current_step_of metadata)
                (total_steps_of (effective_plan plan metadata))
           ++ investigation_complete_section (current_step_of metadata)
                (total_steps_of (effective_plan plan metadata)).
Proof.
  intros NE. unfold investigation_output, key_findings_section.
  rewrite fallback_nonempty.
  destruct agent_results as [|item rest]; [congruence|].
  cbn [nonempty]. rewrite fold_left_app_flat_map.
  reflexivity.
Qed.

(** C1: when a step of the summary generation raises (the [try] block
    raises in the run at hand, or the construction of the client, the
    prompt provider or the invocation of the LLM fails whenever it is
    called), [_generate_executive_summary] returns the fixed fallback
    text, which is the same for every query and every [agent_results];
    nothing is raised, and [format_investigation_response] returns the
    whole document: the title, the query, the fallback text, the "Key
    Findings" heading and what follows it, ending with a line feed. *)
Theorem C1_failure_gives_fallback :
  forall (query : str) (agent_results : AgentResults) (metadata : Metadata)
         (plan : option Plan) (prefs : option (list Pref))
         (st : State World),
    agent_results <> [] ->
    ((exists e st1,
         summary_try C query agent_results prefs st = (Raise e, st1))
     \/ (forall provider n,
            fails (create_llm_with_error_handling C provider n))
     \/ (forall q text, fails (get_executive_summary_prompts C q text))
     \/ (forall llm messages, fails (invoke C llm messages))) ->
    exists st1,
      _generate_executive_summary C query agent_results metadata prefs st
      = (Return FALLBACK_SUMMARY, st1)
      /\ format_investigation_response C query agent_results metadata plan
           prefs st
         = (Return
              (join [LF]
                 (investigation_output query agent_results metadata plan
                    FALLBACK_SUMMARY)),
            st1)
      /\ (forall q r, _generate_fallback_summary q r = FALLBACK_SUMMARY)
      /\ exists document rest,
           format_investigation_response C query agent_results metadata
             plan prefs st
           = (Return document, st1)
           /\ document
              = py "# 🔍 Investigation Results" ++ [LF; LF]
                  ++ py "**Query:** " ++ query ++ [LF; LF]
                  ++ FALLBACK_SUMMARY ++ [LF; LF]
                  ++ KEY_FINDINGS ++ [LF] ++ rest
           /\ rest
              = join [LF]
                  ([] :: flat_map
                           (fun item => agent_lines (fst item) (snd item))
                           agent_results
                      ++ next_steps_section (effective_plan plan metadata)
                           (current_step_of metadata)
                           (total_steps_of (effective_plan plan metadata))
                      ++ investigation_complete_section
                           (current_step_of metadata)
                           (total_steps_of (effective_plan plan metadata)))
           /\ contains FALLBACK_SUMMARY document = true
           /\ contains KEY_FINDINGS document = true
           /\ contains (py "**Query:** " ++ query) document = true.
Proof.
  intros query agent_results metadata plan prefs st NE H.
  assert (R : exists e st1,
             summary_try C query agent_results prefs st = (Raise e, st1)).
  { destruct H as [H | [H | [H | H]]].
    - exact H.
    - apply summary_try_fails_create, H.
    - apply summary_try_fails_prompts, H.
    - apply summary_try_fails_invoke, H. }
  destruct R as [e [st1 R]]. exists st1.
  assert (G : _generate_executive_summary C query agent_results metadata
                prefs st = (Return FALLBACK_SUMMARY, st1)).
  { rewrite generate_summary_try by exact NE. now rewrite R. }
  assert (F : format_investigation_response C query agent_results metadata
                plan prefs st
              = (Return
                   (join [LF]
                      (investigation_output query agent_results metadata
                         plan FALLBACK_SUMMARY)),
                 st1)).
  { unfold format_investigation_response, Eff.bind. now rewrite G. }
  split; [exact G|]. split; [exact F|].
  split; [intros q r; apply fallback_summary_fixed|].
  pose proof (fallback_report_lines query metadata plan NE) as L.
  eexists. eexists. split; [exact F|].
  split; [|split; [reflexivity|]].
  - rewrite L, join_eight. now rewrite <- !app_assoc.
  - rewrite L.
    split; [|split]; apply In_join_contains.
    + do 4 right. now left.
    + do 6 right. now left.
    + do 2 right. now left.
Qed.

(** C10: the summary is the empty text, with no collaborator consulted,
    when [agent_results] is the empty mapping.  For a non-empty mapping
    the [try] block runs: the result is the fallback text or the stripped
    answer of the LLM to a system and a user message; this also holds when
    every answer is skipped and the context text has no agent block. *)
Theorem C10_summary_skipped_only_when_empty :
  forall (query : str) (agent_results : AgentResults) (metadata : Metadata)
         (prefs : option (list Pref)) (st : State World),
    (agent_results = [] ->
     _generate_executive_summary C query agent_results metadata prefs st
     = (Return [], st))
    /\ (agent_results <> [] ->
        exists s st1,
          _generate_executive_summary C query agent_results metadata prefs
            st = (Return s, st1)
          /\ ((s = FALLBACK_SUMMARY
               /\ exists e,
                    summary_try C query agent_results prefs st
                    = (Raise e, st1))
              \/ exists llm system_prompt user_prompt w content,
                   invoke C llm
                     [SystemMessage system_prompt; HumanMessage user_prompt]
                     w
                   = (Return content, world st1)
                   /\ s = strip content))
    /\ (all_skipped agent_results ->
        formatted_results_of agent_results = []
        /\ join [LF] (formatted_results_of agent_results) = [])
    /\ (agent_results <> [] ->
        truthy prefs = false ->
        forall w1 formatter_config w2 n llm w3 system_prompt user_prompt w4
               content w5,
          import_messages C (world st) = (Return tt, w1) ->
          get_output_formatter_config C (llm_provider (self st)) w1
          = (Return formatter_config, w2) ->
          max_tokens formatter_config = Some n ->
          create_llm_with_error_handling C (llm_provider (self st)) n w2
          = (Return llm, w3) ->
          get_executive_summary_prompts C query
            (join [LF] (formatted_results_of agent_results)) w3
          = (Return (system_prompt, user_prompt), w4) ->
          invoke C llm
            [SystemMessage system_prompt; HumanMessage user_prompt] w4
          = (Return content, w5) ->
          _generate_executive_summary C query agent_results metadata prefs
            st
          = (Return (strip content), {| self := self st; world := w5 |})).
Proof.
  intros query agent_results metadata prefs st.
  split; [intros ->; reflexivity|]. split; [|split].
  - intros NE. rewrite generate_summary_try by exact NE.
    destruct (summary_try C query agent_results prefs st) as [[s|e] st1]
      eqn:E.
    + exists s, st1. split; [reflexivity|]. right.
      unfold summary_try in E.
      apply bind_returns in E. destruct E as [_ [s1 [_ E]]].
      apply bind_returns in E. destruct E as [llm [s2 [_ E]]].
      cbv zeta in E.
      apply bind_returns in E. destruct E as [text [s3 [_ E]]].
      apply bind_returns in E. destruct E as [prompts [s4 [_ E]]].
      apply bind_returns in E. destruct E as [content [s5 [Ei E]]].
      apply call_returns in Ei. destruct Ei as [Ei _].
      unfold Eff.ret in E. injection E as <- <-.
      exists llm, (fst prompts), (snd prompts), (world s4), content.
      split; [exact Ei | reflexivity].
    + exists FALLBACK_SUMMARY, st1. split; [reflexivity|]. left.
      split; [reflexivity | now exists e].
  - intros H.
    assert (E : formatted_results_of agent_results = []).
    { unfold formatted_results_of.
      rewrite (fold_left_cond_app
                 (fun item =>
                    truthy (snd item)
                    && negb (str_eqb (get (snd item) []) NO_RESPONSE))
                 (fun item =>
                    py "**" ++ fst item ++ py ":**" ++ [LF]
                      ++ get (snd item) [] ++ [LF])).
      rewrite app_nil_l.
      induction H as [|item rest Hs _ IH]; [reflexivity|].
      cbn [flat_map]. rewrite IH, app_nil_r.
      unfold skipped in Hs. unfold str in *.
      destruct (truthy (snd item)); [|reflexivity].
      cbn [negb orb] in Hs. now rewrite Hs. }
    now rewrite E.
  - intros NE Hp w1 cfg w2 n llm w3 sys usr w4 content w5
      H1 H2 H3 H4 H5 H6.
    rewrite generate_summary_try by exact NE.
    unfold summary_try.
    erewrite bind_step by (apply call_step; exact H1).
    erewrite bind_step by (eapply create_llm_step; eassumption).
    cbv zeta. rewrite Hp.
    erewrite bind_step by reflexivity.
    erewrite bind_step by (apply call_step; exact H5).
    erewrite bind_step by (apply call_step; exact H6).
    reflexivity.
Qed.

End SummaryProperties.

(** ** Two calls with the same inputs *)

Section Determinism.
Context {U : UnicodeData}.
Variables World LLM Pref : Type.

Lemma pure_ret (A : Type) (a : A) :
  pure_in_self (World := World) (Eff.ret a).
Proof. intros st st' E. split; reflexivity. Qed.

Lemma pure_raise (A : Type) (e : exn) :
  pure_in_self (World := World) (@Eff.raise _ A e).
Proof. intros st st' E. split; reflexivity. Qed.

Lemma pure_bind (A B : Type) (m : M World A) (k : A -> M World B) :
  pure_in_self m -> (forall a, pure_in_self (k a)) ->
  pure_in_self (x <- m ;; k x).
Proof.
  intros Hm Hk st st' E. unfold Eff.bind.
  destruct (Hm st st' E) as [E1 S1].
  destruct (Hm st' st (eq_sym E)) as [_ S1'].
  destruct (m st) as [r1 s1], (m st') as [r1' s1'].
  cbn [fst snd] in *. subst r1'.
  destruct r1 as [a|e]; cbn [fst snd].
  - destruct (Hk a s1 s1') as [E2 S2]; [congruence|].
    split; [exact E2 | congruence].
  - split; [reflexivity | exact S1].
Qed.

Lemma pure_try_except (A : Type) (body : M World A)
    (handler : exn -> M World A) :
  pure_in_self body -> (forall e, pure_in_self (handler e)) ->
  pure_in_self (Eff.try_except body handler).
Proof.
  intros Hm Hk st st' E. unfold Eff.try_except.
  destruct (Hm st st' E) as [E1 S1].
  destruct (Hm st' st (eq_sym E)) as [_ S1'].
  destruct (body st) as [r1 s1], (body st') as [r1' s1'].
  cbn [fst snd] in *. subst r1'.
  destruct r1 as [a|e]; cbn [fst snd].
  - split; [reflexivity | exact S1].
  - destruct (Hk e s1 s1') as [E2 S2]; [congruence|].
    split; [exact E2 | congruence].
Qed.

Lemma pure_call (A : Type) (f : Eff.M World A) :
  stateless f -> pure_in_self (call f).
Proof.
  intros H st st' E. unfold call.
  specialize (H (world st) (world st')).
  destruct (f (world st)) as [r w], (f (world st')) as [r' w'].
  cbn [fst snd] in *. split; [exact H | reflexivity].
Qed.

Lemma pure_self_llm_provider : pure_in_self (@self_llm_provider World).
Proof.
  intros st st' E. unfold self_llm_provider. cbn [fst snd].
  split; [now rewrite E | reflexivity].
Qed.

Variable C : Collaborators World LLM Pref.
Hypothesis HC : deterministic C.

Lemma pure_create_llm : pure_in_self (_create_llm C).
Proof.
  destruct HC as [_ [H2 [H3 _]]]. unfold _create_llm.
  apply pure_bind; [apply pure_self_llm_provider | intros provider].
  apply pure_bind; [apply pure_call, H2 | intros formatter_config].
  apply pure_bind; [| intros n; apply pure_call, H3].
  unfold getitem_max_tokens.
  destruct (max_tokens formatter_config); [apply pure_ret | apply pure_raise].
Qed.

Lemma pure_generate_executive_summary (query : str)
    (agent_results : AgentResults) (metadata : Metadata)
    (prefs : option (list Pref)) :
  pure_in_self
    (_generate_executive_summary C query agent_results metadata prefs).
Proof.
  destruct HC as [H1 [_ [_ [H4 [H5 H6]]]]].
  unfold _generate_executive_summary.
  destruct (negb (nonempty agent_results)); [apply pure_ret|].
  apply pure_try_except; [| intros e; apply pure_ret].
  unfold summary_try.
  apply pure_bind; [apply pure_call, H1 | intros _].
  apply pure_bind; [apply pure_create_llm | intros llm]. cbv zeta.
  apply pure_bind.
  { destruct (truthy prefs); [| apply pure_ret].
    apply pure_bind; [apply pure_call, H4 | intros t; apply pure_ret]. }
  intros results_text.
  apply pure_bind; [apply pure_call, H5 | intros prompts].
  apply pure_bind; [apply pure_call, H6 | intros content; apply pure_ret].
Qed.

Lemma pure_format_investigation_response (query : str)
    (agent_results : AgentResults) (metadata : Metadata)
    (plan : option Plan) (prefs : option (list Pref)) :
  pure_in_self
    (format_investigation_response C query agent_results metadata plan
       prefs).
Proof.
  unfold format_investigation_response.
  apply pure_bind; [apply pure_generate_executive_summary|].
  intros s. apply pure_ret.
Qed.

End Determinism.

(** C9: with deterministic collaborators, two calls of
    [format_investigation_response] on one formatter with the same query,
    [agent_results], metadata, plan and preferences (the second call runs
    in the world the first one left) return the same document, code
    point for code point, and the formatter is after each call what it
    was before. *)
Theorem C9_same_inputs_same_document :
  forall (U : UnicodeData) (World LLM Pref : Type)
         (C : Collaborators World LLM Pref)
         (query : str) (agent_results : AgentResults) (metadata : Metadata)
         (plan : option Plan) (prefs : option (list Pref))
         (st : State World),
    deterministic C ->
    let call1 :=
      format_investigation_response C query agent_results metadata plan
        prefs st in
    let call2 :=
      format_investigation_response C query agent_results metadata plan
        prefs (snd call1) in
    (exists document,
        fst call1 = Return document /\ fst call2 = Return document)
    /\ self (snd call1) = self st
    /\ self (snd call2) = self st.
Proof.
  intros U World LLM Pref C query agent_results metadata plan prefs st HC
    call1 call2.
  pose proof (pure_format_investigation_response HC query agent_results
                metadata plan prefs) as P.
  destruct (P st st eq_refl) as [_ S1].
  fold call1 in S1.
  destruct (P (snd call1) st S1) as [E2 S2].
  fold call2 in E2, S2. fold call1 in E2.
  destruct (format_investigation_response_returns C query agent_results
              metadata plan prefs st) as [s [st1 [_ R]]].
  fold call1 in R.
  split; [| split; [exact S1 | congruence]].
  exists (join [LF]
            (investigation_output query agent_results metadata plan s)).
  rewrite E2, R. split; reflexivity.
Qed.

(** ** The investigation report *)

Section Report.
Context {U : UnicodeData}.

Lemma investigation_output_sections (query : str)
    (agent_results : AgentResults) (metadata : Metadata)
    (plan : option Plan) (summary : str) :
  investigation_output query agent_results metadata plan summary
  = HEADER query ++ summary_lines summary
      ++ key_findings_section agent_results
      ++ next_steps_section (effective_plan plan metadata)
           (current_step_of metadata)
           (total_steps_of (effective_plan plan metadata))
      ++ investigation_complete_section (current_step_of metadata)
           (total_steps_of (effective_plan plan metadata)).
Proof. reflexivity. Qed.

Lemma key_findings_flat_map (agent_results : AgentResults) :
  key_findings_section agent_results
  = if nonempty agent_results
    then [KEY_FINDINGS; []]
           ++ flat_map (fun item => agent_lines (fst item) (snd item))
                agent_results
    else [].
Proof.
  unfold key_findings_section.
  destruct (nonempty agent_results); [|reflexivity].
  apply fold_left_app_flat_map.
Qed.

Lemma numbered_not_heading (item : Z * str) (tail : str) :
  numbered item <> 35%N :: tail.
Proof.
  unfold numbered.
  destruct (numbered_line_head (fst item) (snd item))
    as [c [t [E Hc]]].
  rewrite E. intros H. injection H as -> _.
  destruct Hc as [Hc | [Hc | Hc]]; try discriminate. lia.
Qed.

Lemma truthy_of_steps (plan_info : Plan) :
  (0 < total_steps_of plan_info)%Z -> plan_truthy plan_info = true.
Proof.
  unfold total_steps_of, plan_truthy.
  destruct (steps plan_info) as [l|]; [reflexivity|].
  simpl. lia.
Qed.

Lemma In_next_steps_section (plan_info : Plan) (current_step total_steps : Z)
    (x : str) :
  In x (next_steps_section plan_info current_step total_steps) ->
  plan_truthy plan_info = true
  /\ (current_step < total_steps)%Z
  /\ (x = NEXT_STEPS \/ x = []
      \/ exists item, x = numbered item).
Proof.
  unfold next_steps_section.
  destruct (plan_truthy plan_info); [|contradiction].
  destruct (current_step <? total_steps)%Z eqn:E; [|contradiction].
  apply Z.ltb_lt in E. cbn [andb]. intros H.
  split; [reflexivity|]. split; [exact E|].
  apply in_app_or in H. destruct H as [[<- | [<- | []]] | H].
  - left. reflexivity.
  - right; left. reflexivity.
  - apply in_app_or in H. destruct H as [H | [<- | []]].
    + apply in_map_iff in H. destruct H as [item [<- _]].
      right; right. exists item. reflexivity.
    + right; left. reflexivity.
Qed.

Lemma In_complete_section (current_step total_steps : Z) (x : str) :
  In x (investigation_complete_section current_step total_steps) ->
  (current_step >= total_steps)%Z
  /\ (x = COMPLETE \/ x = []
      \/ x = py "All planned investigation steps have been executed.").
Proof.
  unfold investigation_complete_section.
  destruct (current_step >=? total_steps)%Z eqn:E; [|contradiction].
  rewrite Z.geb_leb in E. apply Z.leb_le in E.
  intros H. split; [lia|].
  destruct H as [<- | [<- | [<- | [<- | []]]]].
  - left. reflexivity.
  - right; left. reflexivity.
  - right; right. reflexivity.
  - right; left. reflexivity.
Qed.

(** The shape of the lines that the findings are made of. *)
Lemma startswith_ordinal (s : str) :
  startswith_any s ORDINALS = true ->
  exists d rest, s = d :: 46%N :: rest /\ (49 <= d <= 57)%N.
Proof.
  unfold startswith_any, ORDINALS. cbn [existsb]. intros H.
  repeat (apply orb_true_iff in H; destruct H as [H | H]);
    try discriminate H;
    apply startswith_spec in H; destruct H as [rest ->];
    eexists; eexists; (split; [reflexivity | lia]).
Qed.





End Report.


(** *** The findings *)

Section Findings.
Context {U : UnicodeData}.

Lemma agent_lines_skipped (agent_name : str) (result : option str) :
  skipped result = true -> agent_lines agent_name result = [].
Proof. unfold agent_lines. now intros ->. Qed.

Lemma flat_map_nil (A B : Type) (f : A -> list B) (l : list A) :
  Forall (fun x => f x = []) l -> flat_map f l = [].
Proof.
  induction 1 as [|x l Hx _ IH]; [reflexivity|].
  simpl. now rewrite Hx, IH.
Qed.

Lemma key_findings_all_skipped (agent_results : AgentResults) :
  all_skipped agent_results ->
  key_findings_section agent_results
  = if nonempty agent_results then [KEY_FINDINGS; []] else [].
Proof.
  intros H. rewrite key_findings_flat_map.
  destruct (nonempty agent_results); [|reflexivity].
  rewrite flat_map_nil; [reflexivity|].
  eapply Forall_impl; [|exact H].
  intros item Hs. now apply agent_lines_skipped.
Qed.

(** The lines of one agent stand together inside the findings. *)
Lemma agent_lines_in_findings (agent_results : AgentResults)
    (agent_name : str) (result : option str) :
  In (agent_name, result) agent_results ->
  exists before after,
    key_findings_section agent_results
    = before ++ agent_lines agent_name result ++ after.
Proof.
  intros H. rewrite key_findings_flat_map.
  destruct (in_split _ _ H) as [l1 [l2 ->]].
  destruct (nonempty (l1 ++ (agent_name, result) :: l2)) eqn:E.
  - rewrite flat_map_app. cbn [flat_map fst snd].
    exists ([KEY_FINDINGS; []]
              ++ flat_map (fun item => agent_lines (fst item) (snd item)) l1),
      (flat_map (fun item => agent_lines (fst item) (snd item)) l2).
    now rewrite <- !app_assoc.
  - destruct l1; discriminate.
Qed.

(** A step found by the extractor is already stripped. *)
Lemma format_step_stripped (line : str) :
  format_step (strip line)
  = if startswith_any (strip line) ORDINALS then strip line
    else py "- " ++ strip line.
Proof. unfold format_step. now rewrite strip_idempotent. Qed.

Lemma not_skipped (text : str) :
  text <> [] -> text <> NO_RESPONSE -> skipped (Some text) = false.
Proof.
  intros H1 H2. unfold skipped. cbn [truthy get].
  apply nonempty_true in H1. rewrite H1. cbn [negb orb].
  now apply str_eqb_neq.
Qed.

End Findings.

(** C3: when every answer in [agent_results] is empty or the sentinel
    text, no agent contributes a line: the document is the header, the
    summary, the plan sections and, between them, nothing at all for an
    empty mapping and the bare "Key Findings" heading with its blank line
    for a non-empty one. *)
Theorem C3_skipped_agents_contribute_nothing :
  forall (U : UnicodeData) (World LLM Pref : Type)
         (C : Collaborators World LLM Pref)
         (query : str) (agent_results : AgentResults) (metadata : Metadata)
         (plan : option Plan) (prefs : option (list Pref))
         (st : State World),
    all_skipped agent_results ->
    exists summary st1,
      format_investigation_response C query agent_results metadata plan
        prefs st
      = (Return
           (join [LF]
              (investigation_output query agent_results metadata plan
                 summary)),
         st1)
      /\ investigation_output query agent_results metadata plan summary
         = HEADER query ++ summary_lines summary
             ++ (if nonempty agent_results then [KEY_FINDINGS; []] else [])
             ++ next_steps_section (effective_plan plan metadata)
                  (current_step_of metadata)
                  (total_steps_of (effective_plan plan metadata))
             ++ investigation_complete_section (current_step_of metadata)
                  (total_steps_of (effective_plan plan metadata))
      /\ (forall agent_name result,
            In (agent_name, result) agent_results ->
            agent_lines agent_name result = []).
Proof.
  intros U World LLM Pref C query agent_results metadata plan prefs st H.
  destruct (format_investigation_response_returns C query agent_results
              metadata plan prefs st) as [s [st1 [_ R]]].
  exists s, st1. split; [exact R|]. split.
  - rewrite investigation_output_sections.
    now rewrite key_findings_all_skipped.
  - intros agent_name result Hin. apply agent_lines_skipped.
    unfold all_skipped in H. rewrite Forall_forall in H.
    exact (H _ Hin).
Qed.

(** C5: an agent whose lowered name contains "runbooks" or "operational"
    and whose answer is neither empty nor the sentinel text gets, after
    its subheading, the "Runbook Steps Found" label and one line for each
    trimmed line of the answer that is a step — the trimmed line itself
    when it starts with "1." to "9.", the trimmed line after "- "
    otherwise; when no line of the answer is a step it gets the whole
    answer after "- ". *)
Theorem C5_runbook_steps_emitted :
  forall (U : UnicodeData) (World LLM Pref : Type)
         (C : Collaborators World LLM Pref)
         (query : str) (agent_results : AgentResults) (metadata : Metadata)
         (plan : option Plan) (prefs : option (list Pref))
         (st : State World) (agent_name text : str),
    In (agent_name, Some text) agent_results ->
    text <> [] ->
    text <> NO_RESPONSE ->
    contains (py "runbooks") (lower agent_name)
    || contains (py "operational") (lower agent_name) = true ->
    let emitted (step : str) : str :=
      if startswith_any step ORDINALS then step else py "- " ++ step in
    let steps := filter is_step_line (map strip (split_lines text)) in
    let subheading :=
      py "### " ++ title (replace_char 95%N 32%N agent_name) in
    exists summary st1 before after,
      format_investigation_response C query agent_results metadata plan
        prefs st
      = (Return
           (join [LF]
              (investigation_output query agent_results metadata plan
                 summary)),
         st1)
      /\ investigation_output query agent_results metadata plan summary
         = before ++ agent_lines agent_name (Some text) ++ after
      /\ (steps <> [] ->
          agent_lines agent_name (Some text)
          = [subheading; []; STEPS_FOUND] ++ map emitted steps ++ [[]])
      /\ (steps = [] ->
          agent_lines agent_name (Some text)
          = [subheading; py "- " ++ text; []])
      /\ (forall line,
            In line (split_lines text) ->
            is_step_line (strip line) = true ->
            In STEPS_FOUND
              (investigation_output query agent_results metadata plan
                 summary)
            /\ In (emitted (strip line))
                 (investigation_output query agent_results metadata plan
                    summary)).
Proof.
  intros U World LLM Pref C query agent_results metadata plan prefs st
    agent_name text Hin Hne Hns Hrb emitted steps subheading.
  destruct (format_investigation_response_returns C query agent_results
              metadata plan prefs st) as [s [st1 [_ R]]].
  destruct (agent_lines_in_findings agent_results agent_name (Some text) Hin)
    as [b [a E]].
  exists s, st1, (HEADER query ++ summary_lines s ++ b),
    (a ++ next_steps_section (effective_plan plan metadata)
            (current_step_of metadata)
            (total_steps_of (effective_plan plan metadata))
       ++ investigation_complete_section (current_step_of metadata)
            (total_steps_of (effective_plan plan metadata))).
  assert (Eout : investigation_output query agent_results metadata plan s
                 = (HEADER query ++ summary_lines s ++ b)
                     ++ agent_lines agent_name (Some text)
                     ++ a ++ next_steps_section (effective_plan plan metadata)
                               (current_step_of metadata)
                               (total_steps_of (effective_plan plan metadata))
                     ++ investigation_complete_section
                          (current_step_of metadata)
                          (total_steps_of (effective_plan plan metadata))).
  { rewrite investigation_output_sections, E. now rewrite <- !app_assoc. }
  assert (Emap : map format_step steps = map emitted steps).
  { unfold steps. induction (split_lines text) as [|l ls IH];
      [reflexivity|].
    cbn [map filter]. destruct (is_step_line (strip l)); [|exact IH].
    cbn [map]. rewrite IH. f_equal. apply format_step_stripped. }
  assert (Elines : agent_lines agent_name (Some text)
                   = [subheading]
                       ++ (if nonempty steps
                           then [[]; STEPS_FOUND] ++ map emitted steps ++ [[]]
                           else [py "- " ++ text; []])).
  { unfold agent_lines. rewrite (not_skipped Hne Hns).
    unfold is_runbook_agent. rewrite Hrb.
    rewrite extract_steps_filter. unfold trimmed_lines. fold steps.
    now rewrite Emap. }
  split; [exact R|]. split; [exact Eout|]. split; [|split].
  - intros Hs. apply nonempty_true in Hs. now rewrite Elines, Hs.
  - intros Hs. rewrite Elines, Hs. reflexivity.
  - intros line Hl Hstep.
    assert (Hmem : In (strip line) steps).
    { unfold steps. apply filter_In. split; [|exact Hstep].
      apply in_map, Hl. }
    assert (Hs : nonempty steps = true).
    { destruct steps; [contradiction | reflexivity]. }
    assert (Eblock : agent_lines agent_name (Some text)
                     = [subheading; []; STEPS_FOUND]
                         ++ map emitted steps ++ [[]])
      by now rewrite Elines, Hs.
    rewrite Eout, Eblock. split.
    + apply in_or_app. right. apply in_or_app. left.
      apply in_or_app. left. right. right. left. reflexivity.
    + apply in_or_app. right. apply in_or_app. left.
      apply in_or_app. right. apply in_or_app. left.
      apply in_map, Hmem.
Qed.

(** ** The plan approval request *)

Section PlanApproval.
Context {U : UnicodeData}.

Lemma plan_approval_output_sections (plan : Plan) (query : str) :
  plan_approval_output plan query
  = plan_header plan query
      ++ (if nonempty (get (steps plan) [])
          then [INVESTIGATION_STEPS; []]
                 ++ map numbered (enumerate (get (steps plan) []) 1) ++ [[]]
          else [])
      ++ plan_details plan ++ plan_actions.
Proof. reflexivity. Qed.

Lemma title_unknown : title (py "unknown") = py "Unknown".
Proof. vm_compute. reflexivity. Qed.

End PlanApproval.

(** C7: [format_plan_approval] returns, in every state and whatever the
    collaborators are, the document made from the plan and the query
    alone, and leaves the state as it found it.  The document has the
    line "**Auto-execute:** Yes" when [auto_execute] is true and the line
    "**Auto-execute:** No" otherwise; for a plan without steps it has no
    "Investigation Steps" heading and is the header followed by "Plan
    Details" and "Available Actions". *)
Theorem C7_plan_approval_is_pure :
  forall (U : UnicodeData) (World : Type) (plan : Plan) (query : str)
         (st : State World),
    let output := plan_approval_output plan query in
    format_plan_approval plan query st
    = (Return (join [LF] output), st)
    /\ (get (auto_execute plan) false = true ->
        In (py "**Auto-execute:** Yes") output
        /\ contains (py "**Auto-execute:** Yes") (join [LF] output) = true)
    /\ (get (auto_execute plan) false = false ->
        In (py "**Auto-execute:** No") output
        /\ contains (py "**Auto-execute:** No") (join [LF] output) = true)
    /\ (get (steps plan) [] = [] ->
        output = plan_header plan query ++ plan_details plan ++ plan_actions
        /\ ~ In INVESTIGATION_STEPS output
        /\ In PLAN_DETAILS output
        /\ In AVAILABLE_ACTIONS output).
Proof.
  intros U World plan query st output.
  split; [reflexivity|].
  assert (Hd : forall x, In x (plan_details plan) -> In x output).
  { intros x H. unfold output. rewrite plan_approval_output_sections.
    apply in_or_app. right. apply in_or_app. right.
    apply in_or_app. left. exact H. }
  split; [|split].
  - intros H.
    assert (I : In (py "**Auto-execute:** Yes") output).
    { apply Hd. unfold plan_details. rewrite H.
      right. right. right. left. reflexivity. }
    split; [exact I | now apply In_join_contains].
  - intros H.
    assert (I : In (py "**Auto-execute:** No") output).
    { apply Hd. unfold plan_details. rewrite H.
      right. right. right. left. reflexivity. }
    split; [exact I | now apply In_join_contains].
  - intros H.
    assert (E : output
                = plan_header plan query ++ plan_details plan
                    ++ plan_actions).
    { unfold output. rewrite plan_approval_output_sections, H.
      reflexivity. }
    split; [exact E|]. split; [|split].
    + rewrite E. unfold plan_header, plan_details, plan_actions.
      intros I. apply in_app_or in I. destruct I as [I | I].
      * destruct I as [I | [I | [I | [I | [I | []]]]]]; discriminate I.
      * apply in_app_or in I. destruct I as [I | I].
        -- destruct I as [I | [I | [I | [I | [I | []]]]]]; discriminate I.
        -- destruct I as [I | [I | [I | [I | [I | [I | []]]]]]];
             discriminate I.
    + apply Hd. left. reflexivity.
    + rewrite E. apply in_or_app. right. apply in_or_app. right.
      left. reflexivity.
Qed.

(** C8: a key that the plan does not have is read as its default: the
    document is the one of the plan with the default written in.  A
    missing complexity shows as "Unknown", a missing reasoning as
    "Standard investigation approach", a missing [auto_execute] as "No",
    and missing steps are no steps. *)
Theorem C8_plan_defaults :
  forall (U : UnicodeData) (World : Type) (plan : Plan) (query : str)
         (st : State World),
    (exists document,
        format_plan_approval plan query st = (Return document, st))
    /\ (complexity plan = None ->
        plan_approval_output plan query
        = plan_approval_output
            {| steps := steps plan;
               complexity := Some (py "unknown");
               reasoning := reasoning plan;
               auto_execute := auto_execute plan;
               other_keys := other_keys plan |} query
        /\ In (py "**Complexity:** Unknown")
             (plan_approval_output plan query))
    /\ (reasoning plan = None ->
        plan_approval_output plan query
        = plan_approval_output
            {| steps := steps plan;
               complexity := complexity plan;
               reasoning := Some (py "Standard investigation approach");
               auto_execute := auto_execute plan;
               other_keys := other_keys plan |} query
        /\ In (py "**Reasoning:** Standard investigation approach")
             (plan_approval_output plan query))
    /\ (auto_execute plan = None ->
        plan_approval_output plan query
        = plan_approval_output
            {| steps := steps plan;
               complexity := complexity plan;
               reasoning := reasoning plan;
               auto_execute := Some false;
               other_keys := other_keys plan |} query
        /\ In (py "**Auto-execute:** No")
             (plan_approval_output plan query))
    /\ (steps plan = None ->
        plan_approval_output plan query
        = plan_approval_output
            {| steps := Some [];
               complexity := complexity plan;
               reasoning := reasoning plan;
               auto_execute := auto_execute plan;
               other_keys := other_keys plan |} query
        /\ plan_approval_output plan query
           = plan_header plan query ++ plan_details plan ++ plan_actions).
Proof.
  intros U World plan query st.
  split; [eexists; reflexivity|].
  split; [|split; [|split]]; intros H.
  - split.
    + unfold plan_approval_output. cbn [complexity steps reasoning
        auto_execute]. now rewrite H.
    + rewrite plan_approval_output_sections.
      apply in_or_app. left. unfold plan_header. rewrite H.
      cbn [get]. right. right. right. left.
      now rewrite title_unknown.
  - split.
    + unfold plan_approval_output. cbn [complexity steps reasoning
        auto_execute]. now rewrite H.
    + rewrite plan_approval_output_sections.
      apply in_or_app. right. apply in_or_app. right.
      apply in_or_app. left. unfold plan_details. rewrite H.
      right. right. left. reflexivity.
  - split.
    + unfold plan_approval_output. cbn [complexity steps reasoning
        auto_execute]. now rewrite H.
    + rewrite plan_approval_output_sections.
      apply in_or_app. right. apply in_or_app. right.
      apply in_or_app. left. unfold plan_details. rewrite H.
      right. right. right. left. reflexivity.
  - split.
    + unfold plan_approval_output. cbn [complexity steps reasoning
        auto_execute]. now rewrite H.
    + rewrite plan_approval_output_sections, H. reflexivity.
Qed.

(** C4: for the query "Why is checkout slow?", the answers of
    [runbooks_agent] and of a silent [logs_agent], [plan_step = 0] and a
    plan of three steps, the document has, after the header and the
    summary, the "Runbooks Agent" subsection with the two numbered lines
    as they were written, nothing for [logs_agent], and a "Next Steps"
    section with the two remaining steps, "2. Check DB" and
    "3. Check network". *)
Theorem C4_checkout_document :
  forall (U : UnicodeData) (World LLM Pref : Type)
         (C : Collaborators World LLM Pref) (prefs : option (list Pref))
         (st : State World),
    exists summary st1,
      format_investigation_response C Checkout.query Checkout.agent_results
        Checkout.metadata (Some Checkout.plan) prefs st
      = (Return
           (join [LF]
              (HEADER Checkout.query ++ summary_lines summary
                 ++ [KEY_FINDINGS; [];
                     py "### Runbooks Agent"; [];
                     STEPS_FOUND;
                     py "1. Check CPU";
                     py "2. Check DB"; [];
                     NEXT_STEPS; [];
                     py "2. Check DB";
                     py "3. Check network"; []])),
         st1)
      /\ agent_lines (py "runbooks_agent")
           (Some (py "1. Check CPU" ++ [LF] ++ py "2. Check DB"))
         = [py "### Runbooks Agent"; [];
            STEPS_FOUND;
            py "1. Check CPU";
            py "2. Check DB"; []]
      /\ agent_lines (py "logs_agent") (Some (py "No response provided"))
         = []
      /\ next_steps_section Checkout.plan 1 3
         = [NEXT_STEPS; []; py "2. Check DB"; py "3. Check network"; []].
Proof.
  intros U World LLM Pref C prefs st.
  destruct (format_investigation_response_returns C Checkout.query
              Checkout.agent_results Checkout.metadata (Some Checkout.plan)
              prefs st) as [s [st1 [_ R]]].
  exists s, st1. split; [|split; [|split]].
  - rewrite R, investigation_output_sections.
    apply f_equal2; [|reflexivity].
    do 3 apply f_equal.
    vm_compute. reflexivity.
  - vm_compute. reflexivity.
  - vm_compute. reflexivity.
  - vm_compute. reflexivity.
Qed.

(** ** Further properties *)

(** *** The provider of a formatter *)

(** X1: the provider of a new formatter is the parameter when that is a
    non-empty text, else the value of the environment variable, else
    "bedrock"; it is the empty text only when the parameter is missing or
    empty and the environment variable is set to the empty text. *)
Theorem X1_provider_resolution :
  forall (parameter env_LLM_PROVIDER : option str),
    (truthy parameter = true ->
     llm_provider (create_formatter parameter env_LLM_PROVIDER)
     = get parameter [])
    /\ (truthy parameter = false ->
        llm_provider (create_formatter parameter env_LLM_PROVIDER)
        = get env_LLM_PROVIDER (py "bedrock"))
    /\ (llm_provider (create_formatter parameter env_LLM_PROVIDER) = []
        <-> truthy parameter = false /\ env_LLM_PROVIDER = Some []).
Proof.
  intros parameter env.
  unfold create_formatter, __init__. cbn [llm_provider].
  split; [now intros -> | split; [now intros ->|]].
  destruct parameter as [[|c r]|]; cbn [truthy nonempty get].
  - destruct env as [[|c r]|]; cbn [get]; split;
      try (intros [_ H]; discriminate H); try discriminate; auto.
  - split; [discriminate | intros [H _]; discriminate H].
  - destruct env as [[|c r]|]; cbn [get]; split;
      try (intros [_ H]; discriminate H); try discriminate; auto.
Qed.

(** *** Runbook steps *)

Section Ordinals.
Context {U : UnicodeData}.

Lemma startswith_ordinal_iff (s : str) :
  startswith_any s ORDINALS = true <-> single_digit_ordinal s.
Proof.
  split.
  - intros H. apply startswith_ordinal in H.
    destruct H as [d [rest [-> Hd]]]. now exists d, rest.
  - intros [d [rest [-> Hd]]].
    unfold startswith_any, ORDINALS. cbn [existsb startswith].
    rewrite N.eqb_refl. cbn [andb].
    rewrite !andb_true_r, !orb_false_r, !orb_true_iff, !N.eqb_eq.
    lia.
Qed.

End Ordinals.

(** X2: a runbook step is written out unchanged exactly when, once
    trimmed, it begins with one digit from 1 to 9 followed by a full
    stop; any other step gets "- " in front, and so does a step whose
    number has two digits or is 0. *)
Theorem X2_step_verbatim_iff_single_digit_ordinal :
  forall (U : UnicodeData) (line : str),
    (format_step line = strip line <-> single_digit_ordinal (strip line))
    /\ (~ single_digit_ordinal (strip line) ->
        format_step line = py "- " ++ strip line)
    /\ (forall d1 d2 rest,
          strip line = d1 :: d2 :: rest ->
          d2 <> 46%N \/ d1 = 48%N ->
          format_step line = py "- " ++ strip line).
Proof.
  intros U line.
  assert (D : ~ single_digit_ordinal (strip line) ->
              format_step line = py "- " ++ strip line).
  { intros H. unfold format_step.
    destruct (startswith_any (strip line) ORDINALS) eqn:E; [|reflexivity].
    apply startswith_ordinal_iff in E. contradiction. }
  split; [|split].
  - split.
    + intros H. unfold format_step in H.
      destruct (startswith_any (strip line) ORDINALS) eqn:E.
      * now apply startswith_ordinal_iff.
      * exfalso. assert (L : List.length (py "- " ++ strip line)
                             = List.length (strip line)) by now rewrite H.
        rewrite length_app in L. simpl in L. lia.
    + intros H. unfold format_step.
      apply startswith_ordinal_iff in H. now rewrite H.
  - exact D.
  - intros d1 d2 rest E H. apply D. rewrite E.
    intros [d [r [Eq Hd]]]. injection Eq as -> -> _.
    destruct H as [H | H]; [congruence | subst d; lia].
Qed.

(** *** The plan sections of the report *)

Section PlanSections.

Lemma enumerate_length (A : Type) (l : list A) (start : Z) :
  List.length (enumerate l start) = List.length l.
Proof.
  revert start; induction l as [|x l IH]; intros start; simpl;
    [reflexivity | now rewrite IH].
Qed.


Lemma enumerate_nth_error (A : Type) (l : list A) (start : Z) (j : nat) :
  nth_error (enumerate l start) j
  = option_map (fun x => ((start + Z.of_nat j)%Z, x)) (nth_error l j).
Proof.
  revert start j; induction l as [|x l IH]; intros start [|j];
    try reflexivity.
  - simpl. now rewrite Z.add_0_r.
  - cbn [enumerate nth_error]. rewrite IH.
    destruct (nth_error l j); [|reflexivity].
    cbn [option_map]. do 2 f_equal. lia.
Qed.

Lemma next_steps_nonempty (plan_info : Plan) (current_step total_steps : Z) :
  plan_truthy plan_info = true ->
  (current_step < total_steps)%Z ->
  exists lines,
    next_steps_section plan_info current_step total_steps
    = NEXT_STEPS :: lines.
Proof.
  intros Ht Hl. unfold next_steps_section.
  apply Z.ltb_lt in Hl. rewrite Ht, Hl. cbn [andb app].
  eexists. reflexivity.
Qed.

End PlanSections.

(** X3: for every [plan_step], negative or missing included, the
    "Next Steps" heading is emitted exactly when the effective plan is a
    non-empty [dict] and [current_step < total_steps], the "Investigation
    Complete" heading exactly when [current_step >= total_steps], and the
    two never together.  Neither is emitted exactly when the effective
    plan is the empty [dict] while [current_step < total_steps], which
    needs [plan_step <= -2]. *)
Theorem X3_plan_sections_for_every_plan_step :
  forall (metadata : Metadata) (plan : option Plan),
    let plan_info := effective_plan plan metadata in
    let current_step := current_step_of metadata in
    let total_steps := total_steps_of plan_info in
    let plan_sections :=
      next_steps_section plan_info current_step total_steps
        ++ investigation_complete_section current_step total_steps in
    (In NEXT_STEPS plan_sections
     <-> plan_truthy plan_info = true /\ (current_step < total_steps)%Z)
    /\ (In COMPLETE plan_sections <-> (current_step >= total_steps)%Z)
    /\ ~ (In NEXT_STEPS plan_sections /\ In COMPLETE plan_sections)
    /\ (plan_sections = []
        <-> plan_truthy plan_info = false
            /\ (current_step < total_steps)%Z)
    /\ (plan_sections = [] ->
        total_steps = 0%Z /\ (get (plan_step metadata) 0 <= -2)%Z).
Proof.
  intros metadata plan plan_info current_step total_steps plan_sections.
  assert (N : In NEXT_STEPS plan_sections
              <-> plan_truthy plan_info = true
                  /\ (current_step < total_steps)%Z).
  { split.
    - intros H. apply in_app_or in H. destruct H as [H | H].
      + apply In_next_steps_section in H. tauto.
      + apply In_complete_section in H.
        destruct H as [_ [H | [H | H]]]; discriminate.
    - intros [Ht Hl]. apply in_or_app. left.
      destruct (next_steps_nonempty plan_info Ht Hl) as [lines ->].
      left. reflexivity. }
  assert (D : In COMPLETE plan_sections
              <-> (current_step >= total_steps)%Z).
  { split.
    - intros H. apply in_app_or in H. destruct H as [H | H].
      + apply In_next_steps_section in H.
        destruct H as [_ [_ [H | [H | [item H]]]]]; try discriminate.
        symmetry in H. destruct (numbered_not_heading item H).
      + now apply In_complete_section in H.
    - intros H. apply in_or_app. right.
      unfold investigation_complete_section.
      assert (E : (current_step >=? total_steps)%Z = true)
        by (rewrite Z.geb_leb; apply Z.leb_le; lia).
      rewrite E. left. reflexivity. }
  assert (E : plan_sections = []
              <-> plan_truthy plan_info = false
                  /\ (current_step < total_steps)%Z).
  { split.
    - intros H.
      destruct (Z.lt_ge_cases current_step total_steps) as [Hl | Hg].
      + split; [|exact Hl].
        destruct (plan_truthy plan_info) eqn:Ht; [|reflexivity].
        assert (I : In NEXT_STEPS plan_sections) by (apply N; auto).
        rewrite H in I. contradiction.
      + assert (I : In COMPLETE plan_sections) by (apply D; lia).
        rewrite H in I. contradiction.
    - intros [Ht Hl]. unfold plan_sections, next_steps_section,
        investigation_complete_section.
      rewrite Ht. cbn [andb app].
      assert (G : (current_step >=? total_steps)%Z = false)
        by (rewrite Z.geb_leb; apply Z.leb_gt; lia).
      now rewrite G. }
  split; [exact N|]. split; [exact D|]. split; [|split; [exact E|]].
  - rewrite N, D. lia.
  - intros H. apply E in H. destruct H as [Ht Hl].
    assert (T : total_steps = 0%Z).
    { unfold total_steps.
      destruct (Z.eq_dec (total_steps_of plan_info) 0) as [T | T];
        [exact T|].
      rewrite truthy_of_steps in Ht; [discriminate|].
      unfold total_steps_of in *. lia. }
    split; [exact T|].
    unfold current_step, current_step_of in Hl. lia.
Qed.


(** X5: with [current_step < 0] the slice counts from the end: "Next
    Steps" lists the last [min (-current_step) total_steps] steps of the
    plan, numbered from [current_step + 1], so the first number is 0 or
    negative. *)
Theorem X5_negative_step_lists_last_steps :
  forall (plan_info : Plan) (current_step : Z),
    (current_step < 0)%Z ->
    plan_truthy plan_info = true ->
    let all_steps := get (steps plan_info) [] in
    let total_steps := Z.of_nat (List.length all_steps) in
    let kept := Z.min (- current_step) total_steps in
    next_steps_section plan_info current_step total_steps
    = [NEXT_STEPS; []]
        ++ map numbered
             (enumerate (skipn (Z.to_nat (total_steps - kept)) all_steps)
                (current_step + 1))
        ++ [[]]
    /\ List.length (skipn (Z.to_nat (total_steps - kept)) all_steps)
       = Z.to_nat kept
    /\ (current_step + 1 <= 0)%Z.
Proof.
  intros plan_info current_step Hneg Ht all_steps total_steps kept.
  assert (Hl : (current_step <? total_steps)%Z = true)
    by (apply Z.ltb_lt; unfold total_steps; lia).
  assert (S : slice_from all_steps current_step
              = skipn (Z.to_nat (total_steps - kept)) all_steps).
  { unfold slice_from. apply Z.ltb_lt in Hneg. rewrite Hneg.
    f_equal. unfold kept, total_steps. lia. }
  split; [|split].
  - unfold next_steps_section. fold all_steps.
    now rewrite Ht, Hl, S.
  - rewrite length_skipn. unfold kept, total_steps. lia.
  - lia.
Qed.

(** *** The shape of the documents *)

Section DocumentShape.
Context {U : UnicodeData}.

Lemma join_app_blank (sep : str) (lines : list str) :
  lines <> [] -> join sep (lines ++ [[]]) = join sep lines ++ sep.
Proof.
  induction lines as [|x lines IH]; [congruence|]. intros _.
  destruct lines as [|y lines].
  - simpl. now rewrite app_nil_r.
  - change (join sep ((x :: y :: lines) ++ [[]]))
      with (x ++ sep ++ join sep ((y :: lines) ++ [[]])).
    rewrite IH by discriminate.
    change (join sep (x :: y :: lines))
      with (x ++ sep ++ join sep (y :: lines)).
    now rewrite <- !app_assoc.
Qed.

Lemma ends_blank_app (a b : list str) :
  ends_blank a -> ends_blank b -> ends_blank (a ++ b).
Proof.
  intros Ha [-> | [front ->]].
  - now rewrite app_nil_r.
  - right. exists (a ++ front). now rewrite app_assoc.
Qed.

Lemma ends_blank_cons (x : str) (l : list str) :
  ends_blank l -> l <> [] -> ends_blank (x :: l).
Proof.
  intros [-> | [front ->]] H; [congruence|].
  right. now exists (x :: front).
Qed.

Lemma agent_lines_ends_blank (agent_name : str) (result : option str) :
  ends_blank (agent_lines agent_name result).
Proof.
  unfold agent_lines. destruct (skipped result); [now left|].
  right.
  destruct (is_runbook_agent agent_name).
  - destruct (nonempty (_extract_steps_from_response result)).
    + eexists ([_] ++ [[]; _] ++ map format_step _).
      now rewrite <- !app_assoc.
    + now eexists [_; _].
  - now eexists [_; _].
Qed.

Lemma key_findings_ends_blank (agent_results : AgentResults) :
  ends_blank (key_findings_section agent_results).
Proof.
  rewrite key_findings_flat_map.
  destruct (nonempty agent_results); [|now left].
  apply ends_blank_app; [right; now exists [KEY_FINDINGS]|].
  induction agent_results as [|item rest IH]; [now left|].
  cbn [flat_map]. apply ends_blank_app; [|exact IH].
  apply agent_lines_ends_blank.
Qed.

Lemma next_steps_ends_blank (plan_info : Plan) (current_step total_steps : Z) :
  ends_blank (next_steps_section plan_info current_step total_steps).
Proof.
  unfold next_steps_section.
  destruct (plan_truthy plan_info && (current_step <? total_steps)%Z);
    [|now left].
  right. eexists ([_; _] ++ map _ _). now rewrite <- app_assoc.
Qed.

Lemma complete_ends_blank (current_step total_steps : Z) :
  ends_blank (investigation_complete_section current_step total_steps).
Proof.
  unfold investigation_complete_section.
  destruct (current_step >=? total_steps)%Z; [|now left].
  right. now eexists [_; _; _].
Qed.

Lemma summary_lines_ends_blank (summary : str) :
  ends_blank (summary_lines summary).
Proof.
  unfold summary_lines. destruct (nonempty summary); [|now left].
  right. now exists [summary].
Qed.

(** A joined document that begins with three given lines. *)
Lemma join_three (sep a b c : str) (rest : list str) :
  exists body, join sep (a :: b :: c :: rest) = a ++ sep ++ b ++ sep ++ c ++ body.
Proof.
  destruct rest as [|d rest].
  - exists []. simpl. now rewrite app_nil_r.
  - exists (sep ++ join sep (d :: rest)). reflexivity.
Qed.

Lemma ends_blank_app_r (a b : list str) :
  ends_blank b -> b <> [] -> ends_blank (a ++ b).
Proof.
  intros [-> | [front ->]] H; [congruence|].
  right. exists (a ++ front). now rewrite app_assoc.
Qed.

Lemma app_nonempty_r (A : Type) (a b : list A) : b <> [] -> a ++ b <> [].
Proof. destruct a; [auto | discriminate]. Qed.

Lemma join_three_ends_blank (a b c : str) (tail : list str) :
  ends_blank tail -> tail <> [] ->
  exists body,
    join [LF] (a :: b :: c :: tail)
    = a ++ [LF] ++ b ++ [LF] ++ c ++ body ++ [LF].
Proof.
  intros [-> | [front ->]] H; [congruence|].
  change (a :: b :: c :: front ++ [[]])
    with ((a :: b :: c :: front) ++ [[]]).
  rewrite join_app_blank by discriminate.
  destruct (join_three [LF] a b c front) as [body ->].
  exists body. now rewrite <- !app_assoc.
Qed.

Lemma plan_actions_ends_blank : ends_blank plan_actions /\ plan_actions <> [].
Proof.
  split; [|discriminate]. right. unfold plan_actions.
  now eexists [_; _; _; _; _].
Qed.

End DocumentShape.

(** X6: every investigation report begins with the title line, a blank
    line and the query line, with the query as it was given, and ends
    with a line feed; every plan approval request begins with its title
    line, a blank line and the query line, and ends with a line feed. *)
Theorem X6_documents_begin_with_title_and_end_with_newline :
  forall (U : UnicodeData) (World LLM Pref : Type)
         (C : Collaborators World LLM Pref)
         (query : str) (agent_results : AgentResults) (metadata : Metadata)
         (plan : option Plan) (prefs : option (list Pref))
         (approved : Plan) (st : State World),
    (exists body st1,
        format_investigation_response C query agent_results metadata plan
          prefs st
        = (Return
             (py "# 🔍 Investigation Results" ++ [LF; LF]
                ++ py "**Query:** " ++ query ++ body ++ [LF]),
           st1))
    /\ (exists body,
          format_plan_approval approved query st
          = (Return
               (py "# 📋 Investigation Plan" ++ [LF; LF]
                  ++ py "**Query:** " ++ query ++ body ++ [LF]),
             st)).
Proof.
  intros U World LLM Pref C query agent_results metadata plan prefs
    approved st.
  split.
  - destruct (format_investigation_response_returns C query agent_results
                metadata plan prefs st) as [s [st1 [_ R]]].
    rewrite R, investigation_output_sections.
    destruct (join_three_ends_blank
                (py "# 🔍 Investigation Results") []
                (py "**Query:** " ++ query)
                (tail := [] :: summary_lines s
                   ++ key_findings_section agent_results
                   ++ next_steps_section (effective_plan plan metadata)
                        (current_step_of metadata)
                        (total_steps_of (effective_plan plan metadata))
                   ++ investigation_complete_section
                        (current_step_of metadata)
                        (total_steps_of (effective_plan plan metadata))))
      as [body E]; [|discriminate|].
    { match goal with |- ends_blank (_ :: ?rest) =>
        assert (B : ends_blank rest) end.
      { apply ends_blank_app; [apply summary_lines_ends_blank|].
        apply ends_blank_app; [apply key_findings_ends_blank|].
        apply ends_blank_app;
          [apply next_steps_ends_blank | apply complete_ends_blank]. }
      destruct B as [-> | [front ->]];
        right; [now exists [] | now exists ([] :: front)]. }
    exists body, st1. do 2 f_equal.
    etransitivity; [exact E|]. now rewrite <- !app_assoc.
  - unfold format_plan_approval, Eff.ret.
    rewrite plan_approval_output_sections.
    destruct plan_actions_ends_blank as [Ba Na].
    destruct (join_three_ends_blank PLAN_TITLE []
                (py "**Query:** " ++ query)
                (tail := [py "**Complexity:** "
                            ++ title (get (complexity approved)
                                        (py "unknown")); []]
                   ++ (if nonempty (get (steps approved) [])
                       then [INVESTIGATION_STEPS; []]
                              ++ map numbered
                                   (enumerate (get (steps approved) []) 1)
                              ++ [[]]
                       else [])
                   ++ plan_details approved ++ plan_actions))
      as [body E]; [|discriminate|].
    { repeat (apply ends_blank_app_r; [|repeat apply app_nonempty_r; exact Na]).
      exact Ba. }
    exists body. do 2 f_equal.
    etransitivity; [exact E|]. now rewrite <- !app_assoc.
Qed.

(** *** The summary is trimmed *)

Section Trimmed.
Context {U : UnicodeData}.
Variables World LLM Pref : Type.
Variable C : Collaborators World LLM Pref.

Lemma starts_clean_app (s t : str) :
  starts_clean s -> s <> [] -> starts_clean (s ++ t).
Proof. destruct s; [congruence | intros H _; exact H]. Qed.

Lemma rstrip_ends_clean (s : str) : ends_clean (rstrip s).
Proof.
  unfold ends_clean.
  induction s as [|c r IH]; [exact I|].
  cbn [rstrip]. destruct (rstrip r) as [|d r'] eqn:E.
  - destruct (isspace c) eqn:Ec; [exact I | exact Ec].
  - change (List.rev (c :: d :: r')) with (List.rev (d :: r') ++ [c]).
    apply starts_clean_app; [exact IH|].
    cbn [List.rev]. now destruct (List.rev r').
Qed.

Lemma strip_clean (s : str) :
  starts_clean (strip s) /\ ends_clean (strip s).
Proof.
  split.
  - apply rstrip_starts_clean, lstrip_starts_clean.
  - apply rstrip_ends_clean.
Qed.

Lemma strip_all_space (s : str) :
  Forall (fun c => isspace c = true) s -> strip s = [].
Proof.
  intros H. unfold strip.
  assert (E : lstrip s = []).
  { induction H as [|c r Hc _ IH]; [reflexivity|].
    cbn [lstrip]. now rewrite Hc. }
  now rewrite E.
Qed.

Lemma fallback_clean :
  starts_clean FALLBACK_SUMMARY /\ ends_clean FALLBACK_SUMMARY.
Proof. split; vm_compute; reflexivity. Qed.

(** What the [try] block returns is a stripped answer of the LLM. *)
Lemma summary_try_returns_stripped (query : str)
    (agent_results : AgentResults) (prefs : option (list Pref))
    (st st1 : State World) (s : str) :
  summary_try C query agent_results prefs st = (Return s, st1) ->
  exists content, s = strip content.
Proof.
  intros E. unfold summary_try in E.
  apply bind_returns in E. destruct E as [_ [s1 [_ E]]].
  apply bind_returns in E. destruct E as [llm [s2 [_ E]]].
  cbv zeta in E.
  apply bind_returns in E. destruct E as [text [s3 [_ E]]].
  apply bind_returns in E. destruct E as [prompts [s4 [_ E]]].
  apply bind_returns in E. destruct E as [content [s5 [_ E]]].
  unfold Eff.ret in E. injection E as <- _. now exists content.
Qed.

End Trimmed.

(** X7: whatever the collaborators do, the executive summary neither
    begins nor ends with white space; an answer of the LLM that is white
    space only is stripped to the empty text and leaves no summary lines
    in the report. *)
Theorem X7_summary_is_trimmed :
  forall (U : UnicodeData) (World LLM Pref : Type)
         (C : Collaborators World LLM Pref)
         (query : str) (agent_results : AgentResults) (metadata : Metadata)
         (prefs : option (list Pref)) (st : State World),
    (exists summary st1,
        _generate_executive_summary C query agent_results metadata prefs st
        = (Return summary, st1)
        /\ starts_clean summary
        /\ ends_clean summary)
    /\ (forall content,
          Forall (fun c => isspace c = true) content ->
          strip content = [] /\ summary_lines (strip content) = []).
Proof.
  intros U World LLM Pref C query agent_results metadata prefs st.
  split.
  - destruct agent_results as [|item rest].
    + exists [], st. repeat split.
    + rewrite generate_summary_try by discriminate.
      destruct (summary_try C query (item :: rest) prefs st)
        as [[s|e] st1] eqn:E.
      * exists s, st1. split; [reflexivity|].
        apply summary_try_returns_stripped in E.
        destruct E as [content ->]. apply strip_clean.
      * exists FALLBACK_SUMMARY, st1. split; [reflexivity|].
        apply fallback_clean.
  - intros content H. rewrite (strip_all_space H). split; reflexivity.
Qed.

(** *** Extracting the steps twice *)

Section RoundTrip.
Context {U : UnicodeData}.

Lemma one_line_app (s t : str) :
  one_line (s ++ t) <-> one_line s /\ one_line t.
Proof. unfold one_line. rewrite in_app_iff. tauto. Qed.

Lemma split_lines_one_line (s : str) : one_line s -> split_lines s = [s].
Proof.
  unfold one_line. induction s as [|c r IH]; [reflexivity|].
  intros H. cbn [split_lines].
  destruct (c =? LF)%N eqn:E.
  - apply N.eqb_eq in E. exfalso. apply H. now left.
  - rewrite IH; [reflexivity|]. intros I. apply H. now right.
Qed.

Lemma split_lines_app_LF (s t : str) :
  one_line s -> split_lines (s ++ LF :: t) = s :: split_lines t.
Proof.
  unfold one_line. induction s as [|c r IH]; intros H.
  - cbn [List.app split_lines]. now rewrite N.eqb_refl.
  - cbn [List.app split_lines].
    destruct (c =? LF)%N eqn:E.
    + apply N.eqb_eq in E. exfalso. apply H. now left.
    + rewrite IH; [reflexivity|]. intros I. apply H. now right.
Qed.

(** [split] undoes [join] on lines without a line feed. *)
Lemma split_lines_join (lines : list str) :
  Forall one_line lines -> lines <> [] ->
  split_lines (join [LF] lines) = lines.
Proof.
  induction 1 as [|x lines Hx Hl IH]; [congruence|]. intros _.
  destruct lines as [|y lines].
  - now apply split_lines_one_line.
  - change (join [LF] (x :: y :: lines))
      with (x ++ LF :: join [LF] (y :: lines)).
    rewrite split_lines_app_LF by exact Hx.
    now rewrite IH by discriminate.
Qed.

Lemma split_lines_are_one_line (s : str) : Forall one_line (split_lines s).
Proof.
  induction s as [|c r IH]; [repeat constructor; intros []|].
  cbn [split_lines]. destruct (c =? LF)%N eqn:E.
  - constructor; [intros [] | exact IH].
  - destruct (split_lines r) as [|l ls].
    + constructor; [|constructor].
      intros [I | []]. apply N.eqb_neq in E. congruence.
    + inversion IH as [|? ? Hl Hls]. subst. constructor; [|exact Hls].
      intros [I | I]; [apply N.eqb_neq in E; congruence | exact (Hl I)].
Qed.

Lemma In_lstrip (s : str) (c : char) : In c (lstrip s) -> In c s.
Proof.
  induction s as [|d r IH]; [exact (fun H => H)|].
  cbn [lstrip]. destruct (isspace d); [|exact (fun H => H)].
  intros H. right. exact (IH H).
Qed.

Lemma In_rstrip (s : str) (c : char) : In c (rstrip s) -> In c s.
Proof.
  induction s as [|d r IH]; [exact (fun H => H)|].
  cbn [rstrip]. destruct (rstrip r) as [|e r'].
  - destruct (isspace d); [contradiction|].
    intros [<- | []]. now left.
  - intros [<- | H]; [now left | right; exact (IH H)].
Qed.

Lemma strip_one_line (s : str) : one_line s -> one_line (strip s).
Proof.
  unfold one_line, strip. intros H I.
  apply H, In_lstrip, In_rstrip, I.
Qed.

Lemma filter_all (A : Type) (f : A -> bool) (l : list A) :
  Forall (fun x => f x = true) l -> filter f l = l.
Proof.
  induction 1 as [|x l Hx _ IH]; [reflexivity|].
  cbn [filter]. now rewrite Hx, IH.
Qed.

Lemma map_fixed (A : Type) (f : A -> A) (l : list A) :
  Forall (fun x => f x = x) l -> map f l = l.
Proof.
  induction 1 as [|x l Hx _ IH]; [reflexivity|].
  cbn [map]. now rewrite Hx, IH.
Qed.

(** What the extractor returns: steps, trimmed, each on one line. *)
Lemma extracted_steps_invariant (response : option str) :
  Forall (fun step =>
            is_step_line step = true
            /\ strip step = step
            /\ one_line step)
    (_extract_steps_from_response response).
Proof.
  destruct response as [text|]; [|constructor].
  rewrite extract_steps_filter. unfold trimmed_lines.
  apply Forall_forall. intros step H.
  apply filter_In in H. destruct H as [H Hs].
  apply in_map_iff in H. destruct H as [line [<- Hl]].
  split; [exact Hs|]. split; [apply strip_idempotent|].
  apply strip_one_line.
  pose proof (split_lines_are_one_line text) as F.
  rewrite Forall_forall in F. exact (F _ Hl).
Qed.

End RoundTrip.

(** X8: every step that the extractor returns is a non-empty, trimmed
    text without a line feed, and there are no more steps than lines;
    writing the steps out one per line and extracting again gives the same
    steps. *)
Theorem X8_extracting_twice_changes_nothing :
  forall (U : UnicodeData) (response : option str),
    let steps := _extract_steps_from_response response in
    _extract_steps_from_response (Some (join [LF] steps)) = steps
    /\ Forall (fun step =>
                 step <> [] /\ strip step = step /\ one_line step)
         steps
    /\ List.length steps
       <= List.length (split_lines (get response [])).
Proof.
  intros U response steps.
  pose proof (extracted_steps_invariant response) as Inv.
  fold steps in Inv.
  split; [|split].
  - rewrite extract_steps_filter. unfold trimmed_lines.
    destruct steps as [|x rest] eqn:E; [reflexivity|].
    rewrite split_lines_join; [|
      eapply Forall_impl; [|exact Inv]; intros a H; apply H
      | discriminate].
    rewrite map_fixed
      by (eapply Forall_impl; [|exact Inv]; intros a H; apply H).
    apply filter_all.
    eapply Forall_impl; [|exact Inv]. intros a H; apply H.
  - eapply Forall_impl; [|exact Inv].
    intros step [Hs [Ht Ho]]. split; [|split; assumption].
    intros ->. discriminate Hs.
  - unfold steps. destruct response as [text|]; [|cbn; lia].
    rewrite extract_steps_filter. unfold trimmed_lines. cbn [get].
    etransitivity; [apply filter_length_le|].
    now rewrite length_map.
Qed.

(** *** The agents that contribute *)

Section Contributors.
Context {U : UnicodeData}.

Lemma flat_map_cond (A B : Type) (c : A -> bool) (g : A -> B)
    (l : list A) :
  flat_map (fun x => if c x then [g x] else []) l = map g (filter c l).
Proof.
  induction l as [|x l IH]; [reflexivity|].
  cbn [flat_map filter]. destruct (c x); cbn [map List.app]; now rewrite IH.
Qed.

Lemma formatted_results_contributors (agent_results : AgentResults) :
  formatted_results_of agent_results
  = map context_block (filter contributes agent_results).
Proof.
  unfold formatted_results_of.
  rewrite (fold_left_cond_app
             (fun item =>
                truthy (snd item)
                && negb (str_eqb (get (snd item) []) NO_RESPONSE))
             context_block).
  rewrite app_nil_l, flat_map_cond. f_equal.
  apply filter_ext. intros item. unfold contributes, skipped.
  now rewrite negb_orb, negb_involutive.
Qed.

Lemma agent_lines_contributes (agent_name : str) (result : option str) :
  contributes (agent_name, result) = true ->
  exists body,
    agent_lines agent_name result = subheading agent_name :: body
    /\ Forall (fun line => startswith line (py "### ") = false) body.
Proof.
  unfold contributes. cbn [snd]. intros H.
  apply negb_true_iff in H. unfold agent_lines. rewrite H.
  assert (B : Forall (fun line => startswith line (py "### ") = false)
                [py "- " ++ get result []; []])
    by (repeat constructor).
  destruct (is_runbook_agent agent_name);
    [| eexists; split; [reflexivity | exact B]].
  destruct (nonempty (_extract_steps_from_response result));
    [| eexists; split; [reflexivity | exact B]].
  eexists. split; [reflexivity|].
  apply Forall_app. split; [repeat constructor|].
  apply Forall_app. split; [|repeat constructor].
  apply Forall_forall. intros line I.
  apply in_map_iff in I. destruct I as [step [<- _]].
  unfold format_step.
  destruct (startswith_any (strip step) ORDINALS) eqn:E; [|reflexivity].
  apply startswith_ordinal in E. destruct E as [d [rest [-> Hd]]].
  cbn [startswith]. apply andb_false_iff. left. apply N.eqb_neq. lia.
Qed.

Lemma filter_none (A : Type) (f : A -> bool) (l : list A) :
  Forall (fun x => f x = false) l -> filter f l = [].
Proof.
  induction 1 as [|x l Hx _ IH]; [reflexivity|].
  cbn [filter]. now rewrite Hx.
Qed.

End Contributors.

(** X9: the agents that get a block in the context text handed to the
    prompt provider are the agents that get a subsection in the findings:
    those whose answer is neither missing, empty nor the sentinel text.
    The blocks and the subheadings come in the order of the mapping, one
    for each such agent. *)
Theorem X9_context_and_findings_show_the_same_agents :
  forall (U : UnicodeData) (agent_results : AgentResults),
    formatted_results_of agent_results
    = map context_block (filter contributes agent_results)
    /\ filter (fun line => startswith line (py "### "))
         (key_findings_section agent_results)
       = map (fun item => subheading (fst item))
           (filter contributes agent_results)
    /\ (forall agent_name result,
          agent_lines agent_name result = []
          <-> contributes (agent_name, result) = false).
Proof.
  intros U agent_results.
  split; [apply formatted_results_contributors|]. split.
  - rewrite key_findings_flat_map.
    destruct agent_results as [|item0 rest0]; [reflexivity|].
    cbn [nonempty]. rewrite filter_app.
    change (filter (fun line => startswith line (py "### "))
              [KEY_FINDINGS; []]) with (@nil str).
    rewrite app_nil_l.
    induction (item0 :: rest0) as [|item rest IH]; [reflexivity|].
    cbn [flat_map filter]. rewrite filter_app, IH.
    destruct (contributes item) eqn:E.
    + destruct item as [agent_name result]. cbn [fst snd].
      destruct (agent_lines_contributes agent_name result E)
        as [body [-> Hb]].
      assert (S : startswith (subheading agent_name) (py "### ") = true)
        by reflexivity.
      cbn [filter]. rewrite S.
      now rewrite (filter_none _ Hb).
    + unfold contributes in E. apply negb_false_iff in E.
      now rewrite (agent_lines_skipped (fst item) _ E).
  - intros agent_name result. unfold contributes. cbn [snd].
    rewrite negb_false_iff. split.
    + intros H. destruct (skipped result) eqn:E; [reflexivity|].
      unfold agent_lines in H. rewrite E in H. discriminate H.
    + apply agent_lines_skipped.
Qed.

(** *** The lines of the plan approval request *)

Section ApprovalLines.
Context {U : UnicodeData}.

(** A numbered line begins with a digit, the sign or the dot. *)
Lemma numbered_head (item : Z * str) (c : char) (tail : str) :
  numbered item = c :: tail ->
  c = 45%N \/ c = 46%N \/ (48 <= c <= 57)%N.
Proof.
  unfold numbered.
  destruct (numbered_line_head (fst item) (snd item)) as [d [t [E Hd]]].
  rewrite E. intros H. injection H as <- _. exact Hd.
Qed.

(** Where a line of the request comes from. *)
Lemma In_plan_approval_output (plan : Plan) (query : str) (x : str) :
  In x (plan_approval_output plan query)
  <-> In x (plan_header plan query)
      \/ (get (steps plan) [] <> []
          /\ (x = INVESTIGATION_STEPS \/ x = []
              \/ In x (map numbered (enumerate (get (steps plan) []) 1))))
      \/ In x (plan_details plan)
      \/ In x plan_actions.
Proof.
  rewrite plan_approval_output_sections, !in_app_iff.
  destruct (get (steps plan) []) as [|step rest] eqn:E.
  - cbn [nonempty]. split.
    + intros [H | [[] | H]]; auto.
    + intros [H | [[N _] | H]]; [auto | congruence | auto].
  - cbn [nonempty]. rewrite !in_app_iff. split.
    + intros [H | [[[<- | [<- | []]] | [H | [<- | []]]] | H]]; auto;
        right; left; (split; [discriminate|]); auto.
    + intros [H | [[_ [-> | [-> | H]]] | H]]; auto.
      * right; left; left. now left.
      * right; left; left. right. now left.
Qed.

Lemma heading_only_with_steps (plan : Plan) (query : str) :
  In INVESTIGATION_STEPS (plan_approval_output plan query)
  <-> get (steps plan) [] <> [].
Proof.
  rewrite In_plan_approval_output. split.
  - intros [H | [[N _] | [H | H]]]; [| exact N | |].
    + unfold plan_header in H.
      destruct H as [H | [H | [H | [H | [H | []]]]]]; discriminate H.
    + unfold plan_details in H.
      destruct H as [H | [H | [H | [H | [H | []]]]]]; discriminate H.
    + unfold plan_actions in H.
      destruct H as [H | [H | [H | [H | [H | [H | []]]]]]]; discriminate H.
  - intros N. right. left. split; [exact N | now left].
Qed.

Lemma auto_execute_line (plan : Plan) (query : str) (flag : bool) :
  In (if flag then YES_LINE else NO_LINE) (plan_approval_output plan query)
  <-> get (auto_execute plan) false = flag.
Proof.
  rewrite In_plan_approval_output. split.
  - intros [H | [[_ [H | [H | H]]] | [H | H]]].
    + unfold plan_header in H.
      destruct H as [H | [H | [H | [H | [H | []]]]]];
        destruct flag; cbn [List.app] in H; discriminate H.
    + destruct flag; discriminate H.
    + destruct flag; discriminate H.
    + apply in_map_iff in H. destruct H as [item [H _]].
      destruct flag; apply numbered_head in H;
        destruct H as [H | [H | H]]; try discriminate H; lia.
    + unfold plan_details in H.
      destruct H as [H | [H | [H | [H | [H | []]]]]];
        try (destruct flag; cbn [List.app] in H; discriminate H).
      destruct (get (auto_execute plan) false), flag;
        try reflexivity; cbn [List.app] in H; discriminate H.
    + unfold plan_actions in H.
      destruct H as [H | [H | [H | [H | [H | [H | []]]]]]];
        destruct flag; discriminate H.
  - intros E. right. right. left. unfold plan_details. rewrite E.
    right. right. right. left. now destruct flag.
Qed.

(** Lines without a line feed. *)
Lemma one_line_check (s : str) :
  forallb (fun c => negb (c =? LF)%N) s = true -> one_line s.
Proof.
  unfold one_line. rewrite forallb_forall. intros H I.
  apply H in I. now rewrite N.eqb_refl in I.
Qed.

Lemma numbered_one_line (item : Z * str) :
  one_line (snd item) -> one_line (numbered item).
Proof.
  intros H. unfold numbered.
  apply one_line_app. split; [|apply one_line_app; split; [|exact H]].
  - intros I. apply int_to_str_chars in I.
    unfold LF in I. destruct I as [I | I]; [discriminate | lia].
  - now apply one_line_check.
Qed.

Lemma enumerate_snd (A : Type) (l : list A) (start : Z) (item : Z * A) :
  In item (enumerate l start) -> In (snd item) l.
Proof.
  revert start; induction l as [|x l IH]; intros start; [contradiction|].
  cbn [enumerate]. intros [<- | H]; [now left | right; eapply IH, H].
Qed.

Lemma plan_approval_one_line (plan : Plan) (query : str) :
  one_line query ->
  one_line (title (get (complexity plan) (py "unknown"))) ->
  one_line (get (reasoning plan) (py "Standard investigation approach")) ->
  Forall one_line (get (steps plan) []) ->
  Forall one_line (plan_approval_output plan query).
Proof.
  intros Hq Hc Hr Hs. apply Forall_forall. intros x I.
  apply In_plan_approval_output in I.
  destruct I as [I | [[_ [-> | [-> | I]]] | [I | I]]].
  - unfold plan_header in I.
    destruct I as [<- | [<- | [<- | [<- | [<- | []]]]]];
      try (now apply one_line_check).
    + apply one_line_app. split; [now apply one_line_check | exact Hq].
    + apply one_line_app. split; [now apply one_line_check | exact Hc].
  - now apply one_line_check.
  - now apply one_line_check.
  - apply in_map_iff in I. destruct I as [item [<- I]].
    apply numbered_one_line. apply enumerate_snd in I.
    rewrite Forall_forall in Hs. exact (Hs _ I).
  - unfold plan_details in I.
    destruct I as [<- | [<- | [<- | [<- | [<- | []]]]]];
      try (now apply one_line_check).
    + apply one_line_app. split; [now apply one_line_check | exact Hr].
    + apply one_line_app. split; [now apply one_line_check|].
      destruct (get (auto_execute plan) false); now apply one_line_check.
  - unfold plan_actions in I.
    destruct I as [<- | [<- | [<- | [<- | [<- | [<- | []]]]]]];
      now apply one_line_check.
Qed.

End ApprovalLines.

(** X10: in the plan approval request the heading "Investigation Steps"
    is there exactly when the plan has at least one step; the line
    "**Auto-execute:** Yes" is there exactly when [auto_execute] is true
    and the line "**Auto-execute:** No" exactly when it is false or
    missing, so never both; and the step at index [j] of the plan is
    listed as [j + 1], a full stop, a blank and the step. *)
Theorem X10_plan_approval_headings_and_numbers :
  forall (U : UnicodeData) (plan : Plan) (query : str),
    let output := plan_approval_output plan query in
    (In INVESTIGATION_STEPS output <-> get (steps plan) [] <> [])
    /\ (In YES_LINE output <-> get (auto_execute plan) false = true)
    /\ (In NO_LINE output <-> get (auto_execute plan) false = false)
    /\ ~ (In YES_LINE output /\ In NO_LINE output)
    /\ (forall j step,
          nth_error (get (steps plan) []) j = Some step ->
          nth_error (map numbered (enumerate (get (steps plan) []) 1)) j
          = Some (int_to_str (Z.of_nat j + 1) ++ py ". " ++ step)
          /\ In (int_to_str (Z.of_nat j + 1) ++ py ". " ++ step) output).
Proof.
  intros U plan query output.
  pose proof (auto_execute_line plan query true) as Y.
  pose proof (auto_execute_line plan query false) as N.
  cbn iota in Y, N. fold output in Y, N.
  split; [apply heading_only_with_steps|].
  split; [exact Y|]. split; [exact N|]. split.
  - rewrite Y, N. intros [H1 H2]. congruence.
  - intros j step Hj.
    assert (E : nth_error
                  (map numbered (enumerate (get (steps plan) []) 1)) j
                = Some (int_to_str (Z.of_nat j + 1) ++ py ". " ++ step)).
    { rewrite nth_error_map, enumerate_nth_error, Hj.
      cbn [option_map]. unfold numbered. cbn [fst snd].
      now rewrite Z.add_comm. }
    split; [exact E|].
    apply In_plan_approval_output. right. left.
    split; [intros Z; rewrite Z in Hj; destruct j; discriminate Hj|].
    right. right. eapply nth_error_In, E.
Qed.

(** X11: when neither the query, the complexity as it is shown, the
    reasoning nor any step has a line feed in it, the lines of the plan
    approval request, cut at the line feeds, are the lines the renderer
    wrote: "## Investigation Steps" is a line of the document exactly
    when the plan has a step, and the document has 16 lines for a plan
    without steps and the number of steps plus 19 otherwise. *)
Theorem X11_plan_approval_lines_round_trip :
  forall (U : UnicodeData) (plan : Plan) (query : str),
    one_line query ->
    one_line (title (get (complexity plan) (py "unknown"))) ->
    one_line (get (reasoning plan) (py "Standard investigation approach")) ->
    Forall one_line (get (steps plan) []) ->
    let document := join [LF] (plan_approval_output plan query) in
    split_lines document = plan_approval_output plan query
    /\ (In INVESTIGATION_STEPS (split_lines document)
        <-> get (steps plan) [] <> [])
    /\ List.length (split_lines document)
       = match get (steps plan) [] with
         | [] => 16
         | all_steps => List.length all_steps + 19
         end.
Proof.
  intros U plan query Hq Hc Hr Hs document.
  assert (E : split_lines document = plan_approval_output plan query).
  { unfold document. apply split_lines_join.
    - now apply plan_approval_one_line.
    - rewrite plan_approval_output_sections. discriminate. }
  split; [exact E|]. split.
  - rewrite E. apply heading_only_with_steps.
  - rewrite E, plan_approval_output_sections.
    destruct (get (steps plan) []) as [|step rest]; [reflexivity|].
    cbn [nonempty]. rewrite !length_app, length_map, enumerate_length.
    cbn [List.length]. unfold plan_header, plan_details, plan_actions.
    cbn [List.length]. lia.
Qed.

(** *** How often the LLM is asked *)

Section Requests.
Context {U : UnicodeData}.
Variables World LLM Pref : Type.
Variable C : Collaborators World LLM Pref.

Lemma asks_ret (A : Type) (a : A) :
  asks_at_most (World := World) 0 (Eff.ret a).
Proof. intros st. cbn. lia. Qed.

Lemma asks_raise (A : Type) (e : exn) :
  asks_at_most (World := World) 0 (@Eff.raise _ A e).
Proof. intros st. cbn. lia. Qed.

Lemma asks_weaken (A : Type) (k k' : nat) (m : M (World * nat) A) :
  k <= k' -> asks_at_most k m -> asks_at_most k' m.
Proof. intros L H st. specialize (H st). lia. Qed.

Lemma asks_bind (A B : Type) (k1 k2 : nat) (m : M (World * nat) A)
    (k : A -> M (World * nat) B) :
  asks_at_most k1 m -> (forall a, asks_at_most k2 (k a)) ->
  asks_at_most (k1 + k2) (x <- m ;; k x).
Proof.
  intros Hm Hk st. unfold Eff.bind. specialize (Hm st).
  destruct (m st) as [[a|e] s1]; cbn [snd] in *.
  - specialize (Hk a s1). lia.
  - lia.
Qed.

Lemma asks_try_except (A : Type) (k1 k2 : nat) (body : M (World * nat) A)
    (handler : exn -> M (World * nat) A) :
  asks_at_most k1 body -> (forall e, asks_at_most k2 (handler e)) ->
  asks_at_most (k1 + k2) (Eff.try_except body handler).
Proof.
  intros Hm Hk st. unfold Eff.try_except. specialize (Hm st).
  destruct (body st) as [[a|e] s1]; cbn [snd] in *.
  - lia.
  - specialize (Hk e s1). lia.
Qed.

Lemma asks_call_uncounted (A : Type) (f : Eff.M World A) :
  asks_at_most 0 (call (uncounted f)).
Proof.
  intros st. unfold call, uncounted, invocations.
  destruct (f (fst (world st))) as [r w]. cbn. lia.
Qed.

Lemma asks_call_invoke (llm : LLM) (messages : list message) :
  asks_at_most 1 (call (invoke (counted C) llm messages)).
Proof.
  intros st. unfold call, counted, invocations. cbn [invoke].
  destruct (invoke C llm messages (fst (world st))) as [r w]. cbn. lia.
Qed.

Lemma asks_self : asks_at_most 0 (@self_llm_provider (World * nat)).
Proof. intros st. cbn. lia. Qed.

Lemma asks_create_llm : asks_at_most 0 (_create_llm (counted C)).
Proof.
  unfold _create_llm.
  apply (asks_bind (k1 := 0) (k2 := 0)); [apply asks_self | intros provider].
  apply (asks_bind (k1 := 0) (k2 := 0));
    [apply asks_call_uncounted | intros formatter_config].
  apply (asks_bind (k1 := 0) (k2 := 0));
    [| intros n; apply asks_call_uncounted].
  unfold getitem_max_tokens.
  destruct (max_tokens formatter_config); [apply asks_ret | apply asks_raise].
Qed.

(** The context text and the prompts are made without the LLM. *)
Lemma asks_results_text (prefs : option (list Pref)) (text : str) :
  asks_at_most 0
    (if truthy prefs
     then
       prefs_text <- call (json_dumps (counted C) (get prefs [])) ;;
       Eff.ret (text ++ [LF; LF] ++ py "**User Preferences:**"
                  ++ [LF] ++ prefs_text ++ [LF])
     else Eff.ret text).
Proof.
  destruct (truthy prefs); [|apply asks_ret].
  apply (asks_bind (k1 := 0) (k2 := 0));
    [apply asks_call_uncounted | intros t; apply asks_ret].
Qed.

Lemma asks_summary_try (query : str) (agent_results : AgentResults)
    (prefs : option (list Pref)) :
  asks_at_most 1 (summary_try (counted C) query agent_results prefs).
Proof.
  unfold summary_try.
  apply (asks_bind (k1 := 0) (k2 := 1));
    [apply asks_call_uncounted | intros _].
  apply (asks_bind (k1 := 0) (k2 := 1)); [apply asks_create_llm | intros llm].
  cbv zeta.
  apply (asks_bind (k1 := 0) (k2 := 1));
    [apply asks_results_text | intros text].
  apply (asks_bind (k1 := 0) (k2 := 1));
    [apply asks_call_uncounted | intros prompts].
  apply (asks_bind (k1 := 1) (k2 := 0));
    [apply asks_call_invoke | intros content; apply asks_ret].
Qed.

Lemma asks_generate (query : str) (agent_results : AgentResults)
    (metadata : Metadata) (prefs : option (list Pref)) :
  asks_at_most 1
    (_generate_executive_summary (counted C) query agent_results metadata
       prefs).
Proof.
  unfold _generate_executive_summary.
  destruct (negb (nonempty agent_results)).
  - apply (asks_weaken (k := 0)); [lia | apply asks_ret].
  - apply (asks_try_except (k1 := 1) (k2 := 0));
      [apply asks_summary_try | intros e; apply asks_ret].
Qed.

(** The counter does not change what the methods do. *)
Lemma tracks_ret (A : Type) (a : A) :
  tracks (World := World) (Eff.ret a) (Eff.ret a).
Proof. intros st. split; reflexivity. Qed.

Lemma tracks_raise (A : Type) (e : exn) :
  tracks (World := World) (@Eff.raise _ A e) (@Eff.raise _ A e).
Proof. intros st. split; reflexivity. Qed.

Lemma tracks_bind (A B : Type) (m' : M (World * nat) A) (m : M World A)
    (k' : A -> M (World * nat) B) (k : A -> M World B) :
  tracks m' m -> (forall a, tracks (k' a) (k a)) ->
  tracks (x <- m' ;; k' x) (x <- m ;; k x).
Proof.
  intros Hm Hk st. unfold Eff.bind. destruct (Hm st) as [E1 E2].
  destruct (m' st) as [r1 s1], (m (forget st)) as [r2 s2].
  cbn [fst snd] in *. subst r2 s2.
  destruct r1 as [a|e]; [apply Hk | split; reflexivity].
Qed.

Lemma tracks_try_except (A : Type) (m' : M (World * nat) A) (m : M World A)
    (h' : exn -> M (World * nat) A) (h : exn -> M World A) :
  tracks m' m -> (forall e, tracks (h' e) (h e)) ->
  tracks (Eff.try_except m' h') (Eff.try_except m h).
Proof.
  intros Hm Hk st. unfold Eff.try_except. destruct (Hm st) as [E1 E2].
  destruct (m' st) as [r1 s1], (m (forget st)) as [r2 s2].
  cbn [fst snd] in *. subst r2 s2.
  destruct r1 as [a|e]; [split; reflexivity | apply Hk].
Qed.

Lemma tracks_call_uncounted (A : Type) (f : Eff.M World A) :
  tracks (call (uncounted f)) (call f).
Proof.
  intros st. unfold call, uncounted, forget. cbn [world self].
  destruct (f (fst (world st))) as [r w]. split; reflexivity.
Qed.

Lemma tracks_call_invoke (llm : LLM) (messages : list message) :
  tracks (call (invoke (counted C) llm messages))
    (call (invoke C llm messages)).
Proof.
  intros st. unfold call, counted, forget. cbn [invoke world self].
  destruct (invoke C llm messages (fst (world st))) as [r w].
  split; reflexivity.
Qed.

Lemma tracks_self :
  tracks (@self_llm_provider (World * nat)) (@self_llm_provider World).
Proof. intros st. split; reflexivity. Qed.

Lemma tracks_create_llm : tracks (_create_llm (counted C)) (_create_llm C).
Proof.
  unfold _create_llm.
  apply tracks_bind; [apply tracks_self | intros provider].
  apply tracks_bind; [apply tracks_call_uncounted | intros formatter_config].
  apply tracks_bind; [| intros n; apply tracks_call_uncounted].
  unfold getitem_max_tokens.
  destruct (max_tokens formatter_config);
    [apply tracks_ret | apply tracks_raise].
Qed.

Lemma tracks_generate (query : str) (agent_results : AgentResults)
    (metadata : Metadata) (prefs : option (list Pref)) :
  tracks
    (_generate_executive_summary (counted C) query agent_results metadata
       prefs)
    (_generate_executive_summary C query agent_results metadata prefs).
Proof.
  unfold _generate_executive_summary.
  destruct (negb (nonempty agent_results)); [apply tracks_ret|].
  apply tracks_try_except; [| intros e; apply tracks_ret].
  unfold summary_try.
  apply tracks_bind; [apply tracks_call_uncounted | intros _].
  apply tracks_bind; [apply tracks_create_llm | intros llm]. cbv zeta.
  apply tracks_bind.
  { destruct (truthy prefs); [| apply tracks_ret].
    apply tracks_bind;
      [apply tracks_call_uncounted | intros t; apply tracks_ret]. }
  intros text.
  apply tracks_bind; [apply tracks_call_uncounted | intros prompts].
  apply tracks_bind;
    [apply tracks_call_invoke | intros content; apply tracks_ret].
Qed.

(** Failing before the LLM is asked. *)
Lemma unasked_bind_l (A B : Type) (m : M (World * nat) A)
    (k : A -> M (World * nat) B) :
  fails_unasked m -> fails_unasked (x <- m ;; k x).
Proof.
  intros H st. unfold Eff.bind.
  destruct (H st) as [e [s1 [-> E]]]. now exists e, s1.
Qed.

Lemma unasked_bind_r (A B : Type) (m : M (World * nat) A)
    (k : A -> M (World * nat) B) :
  asks_at_most 0 m -> (forall a, fails_unasked (k a)) ->
  fails_unasked (x <- m ;; k x).
Proof.
  intros Hm Hk st. unfold Eff.bind. specialize (Hm st).
  destruct (m st) as [[a|e] s1]; cbn [snd] in Hm.
  - destruct (Hk a s1) as [e [s2 [-> E]]]. exists e, s2.
    split; [reflexivity | lia].
  - exists e, s1. split; [reflexivity | lia].
Qed.

Lemma unasked_call (A : Type) (f : Eff.M World A) :
  fails f -> fails_unasked (call (uncounted f)).
Proof.
  intros H st. unfold call, uncounted.
  destruct (H (fst (world st))) as [e [w ->]].
  eexists. eexists. split; reflexivity.
Qed.

Lemma call_uncounted_outcome (A : Type) (f : Eff.M World A)
    (st s1 : State (World * nat)) (r : result A) :
  call (uncounted f) st = (r, s1) ->
  (exists w', f (fst (world st)) = (r, w'))
  /\ invocations s1 = invocations st.
Proof.
  unfold call, uncounted, invocations.
  destruct (f (fst (world st))) as [r0 w]. intros E.
  injection E as <- <-. split; [now exists w | reflexivity].
Qed.

Lemma unasked_missing_max_tokens :
  (forall provider w formatter_config w',
      get_output_formatter_config C provider w = (Return formatter_config, w')
      -> max_tokens formatter_config = None) ->
  fails_unasked (_create_llm (counted C)).
Proof.
  intros H. unfold _create_llm.
  apply unasked_bind_r; [apply asks_self | intros provider].
  intros st. unfold Eff.bind at 1.
  destruct (call (get_output_formatter_config (counted C) provider) st)
    as [[cfg|e] s1] eqn:E;
    apply call_uncounted_outcome in E; destruct E as [[w' E] I].
  - apply H in E. unfold Eff.bind, getitem_max_tokens. rewrite E.
    unfold Eff.raise. eexists. eexists. split; [reflexivity | exact I].
  - eexists. eexists. split; [reflexivity | exact I].
Qed.

End Requests.

(** X12: a call of [format_investigation_response] asks the LLM at most
    once, and not at all when [agent_results] is empty; counting the
    requests changes neither the document nor the rest of the world. *)
Theorem X12_llm_asked_at_most_once :
  forall (U : UnicodeData) (World LLM Pref : Type)
         (C : Collaborators World LLM Pref)
         (query : str) (agent_results : AgentResults) (metadata : Metadata)
         (plan : option Plan) (prefs : option (list Pref))
         (st : State (World * nat)),
    let counting :=
      format_investigation_response (counted C) query agent_results
        metadata plan prefs st in
    let plain :=
      format_investigation_response C query agent_results metadata plan
        prefs (forget st) in
    fst counting = fst plain
    /\ forget (snd counting) = snd plain
    /\ invocations st <= invocations (snd counting) <= invocations st + 1
    /\ (agent_results = [] -> invocations (snd counting) = invocations st).
Proof.
  intros U World LLM Pref C query agent_results metadata plan prefs st
    counting plain.
  assert (T : tracks
                (format_investigation_response (counted C) query
                   agent_results metadata plan prefs)
                (format_investigation_response C query agent_results
                   metadata plan prefs)).
  { unfold format_investigation_response.
    apply tracks_bind; [apply tracks_generate | intros s; apply tracks_ret]. }
  assert (A : asks_at_most 1
                (format_investigation_response (counted C) query
                   agent_results metadata plan prefs)).
  { unfold format_investigation_response.
    apply (asks_bind (k1 := 1) (k2 := 0));
      [apply asks_generate | intros s; apply asks_ret]. }
  destruct (T st) as [T1 T2].
  split; [exact T1|]. split; [exact T2|]. split; [exact (A st)|].
  intros ->. reflexivity.
Qed.

(** X13: when something that comes before the invocation fails — the
    import, the configuration lookup, a configuration without
    ["max_tokens"], the construction of the client, the serialisation of
    non-empty preferences or the prompt provider — the summary is the
    fallback text and the LLM has not been asked. *)
Theorem X13_early_failure_costs_no_request :
  forall (U : UnicodeData) (World LLM Pref : Type)
         (C : Collaborators World LLM Pref)
         (query : str) (agent_results : AgentResults) (metadata : Metadata)
         (prefs : option (list Pref)) (st : State (World * nat)),
    agent_results <> [] ->
    (fails (import_messages C)
     \/ (forall provider, fails (get_output_formatter_config C provider))
     \/ (forall provider w formatter_config w',
            get_output_formatter_config C provider w
            = (Return formatter_config, w') ->
            max_tokens formatter_config = None)
     \/ (forall provider n,
            fails (create_llm_with_error_handling C provider n))
     \/ (truthy prefs = true /\ forall p, fails (json_dumps C p))
     \/ (forall q text, fails (get_executive_summary_prompts C q text))) ->
    exists st1,
      _generate_executive_summary (counted C) query agent_results metadata
        prefs st
      = (Return FALLBACK_SUMMARY, st1)
      /\ invocations st1 = invocations st.
Proof.
  intros U World LLM Pref C query agent_results metadata prefs st NE H.
  assert (F : fails_unasked
                (summary_try (counted C) query agent_results prefs)).
  { unfold summary_try.
    destruct H as [H | [H | [H | [H | [[Hp H] | H]]]]].
    - apply unasked_bind_l, unasked_call, H.
    - apply unasked_bind_r; [apply asks_call_uncounted | intros _].
      apply unasked_bind_l. unfold _create_llm.
      apply unasked_bind_r; [apply asks_self | intros provider].
      apply unasked_bind_l, unasked_call, H.
    - apply unasked_bind_r; [apply asks_call_uncounted | intros _].
      apply unasked_bind_l, unasked_missing_max_tokens, H.
    - apply unasked_bind_r; [apply asks_call_uncounted | intros _].
      apply unasked_bind_l. unfold _create_llm.
      apply unasked_bind_r; [apply asks_self | intros provider].
      apply unasked_bind_r; [apply asks_call_uncounted | intros cfg].
      apply unasked_bind_r; [| intros n; apply unasked_call, H].
      unfold getitem_max_tokens.
      destruct (max_tokens cfg); [apply asks_ret | apply asks_raise].
    - apply unasked_bind_r; [apply asks_call_uncounted | intros _].
      apply unasked_bind_r; [apply asks_create_llm | intros llm].
      cbv zeta. apply unasked_bind_l. rewrite Hp.
      apply unasked_bind_l, unasked_call, H.
    - apply unasked_bind_r; [apply asks_call_uncounted | intros _].
      apply unasked_bind_r; [apply asks_create_llm | intros llm].
      cbv zeta.
      apply unasked_bind_r; [apply asks_results_text | intros text].
      apply unasked_bind_l, unasked_call, H. }
  destruct (F st) as [e [st1 [E I]]].
  exists st1. split; [|exact I].
  rewrite generate_summary_try by exact NE. now rewrite E.
Qed.

(** *** The preferences in the context text *)

(** X14: with a non-empty list of preferences and collaborators that all
    answer, the text handed to the prompt provider is the agent blocks
    joined by line feeds, then two line feeds, the heading
    "**User Preferences:**", a line feed, the serialised preferences and a
    line feed; the summary is the stripped answer of the LLM to the two
    prompts made from that text. *)
Theorem X14_preferences_follow_the_agent_blocks :
  forall (U : UnicodeData) (World LLM Pref : Type)
         (C : Collaborators World LLM Pref)
         (query : str) (agent_results : AgentResults) (metadata : Metadata)
         (prefs : list Pref) (st : State World)
         (w1 w2 w3 w4 w5 w6 : World) (formatter_config : FormatterConfig)
         (n : Z) (llm : LLM)
         (prefs_text system_prompt user_prompt content : str),
    agent_results <> [] ->
    prefs <> [] ->
    import_messages C (world st) = (Return tt, w1) ->
    get_output_formatter_config C (llm_provider (self st)) w1
    = (Return formatter_config, w2) ->
    max_tokens formatter_config = Some n ->
    create_llm_with_error_handling C (llm_provider (self st)) n w2
    = (Return llm, w3) ->
    json_dumps C prefs w3 = (Return prefs_text, w4) ->
    get_executive_summary_prompts C query
      (join [LF] (map context_block (filter contributes agent_results))
         ++ [LF; LF] ++ py "**User Preferences:**" ++ [LF]
         ++ prefs_text ++ [LF])
      w4
    = (Return (system_prompt, user_prompt), w5) ->
    invoke C llm [SystemMessage system_prompt; HumanMessage user_prompt] w5
    = (Return content, w6) ->
    _generate_executive_summary C query agent_results metadata (Some prefs)
      st
    = (Return (strip content), {| self := self st; world := w6 |}).
Proof.
  intros U World LLM Pref C query agent_results metadata prefs st
    w1 w2 w3 w4 w5 w6 cfg n llm prefs_text sys usr content
    NE NP H1 H2 H3 H4 H5 H6 H7.
  rewrite generate_summary_try by exact NE.
  unfold summary_try.
  erewrite bind_step by (apply call_step; exact H1).
  erewrite bind_step by (eapply create_llm_step; eassumption).
  cbv zeta.
  assert (T : truthy (Some prefs) = true)
    by (destruct prefs; [congruence | reflexivity]).
  rewrite T. cbn [get].
  rewrite formatted_results_contributors.
  erewrite bind_step;
    [| erewrite bind_step by (apply call_step; exact H5); reflexivity].
  erewrite bind_step by (apply call_step; exact H6).
  erewrite bind_step by (apply call_step; exact H7).
  reflexivity.
Qed.

(** *** The properties on concrete inputs *)

#[local] Existing Instance Mock.ascii_tables.

(** For the input of C4 the "Next Steps" section lists two steps, and
    the line "2. Check network" is not in the document. *)
Lemma C4_next_steps_lists_two_steps :
  fst (example_run Checkout.agent_results Checkout.metadata
         (Some Checkout.plan) Mock.state0)
  = Return Checkout.document
  /\ contains (py "2. Check network") Checkout.document = false
  /\ contains
       (NEXT_STEPS ++ [LF; LF] ++ py "2. Check DB" ++ [LF]
          ++ py "3. Check network" ++ [LF])
       Checkout.document
     = true.
Proof. vm_compute. repeat split. Qed.

(** A mapping whose only answer is the sentinel text still gets the
    "Key Findings" heading. *)
Lemma C3_heading_without_findings :
  all_skipped Silent.agent_results
  /\ fst (example_run Silent.agent_results Checkout.metadata None
            Mock.state0)
     = Return Silent.document
  /\ contains KEY_FINDINGS Silent.document = true.
Proof.
  split; [repeat constructor|].
  vm_compute. repeat split.
Qed.

(** An agent named [runbook_agent] contains "runbook" and answers with
    two numbered lines, yet its answer is shown as one bullet, without
    the "Runbook Steps Found" label. *)
Lemma C5_runbook_without_s :
  contains (py "runbook") (lower (py "runbook_agent")) = true
  /\ is_step_line (strip (py "1. Check CPU")) = true
  /\ fst (example_run Runbook.agent_results Checkout.metadata None
            Mock.state0)
     = Return Runbook.document
  /\ contains STEPS_FOUND Runbook.document = false
  /\ contains (py "- 1. Check CPU" ++ [LF] ++ py "2. Check DB")
       Runbook.document
     = true.
Proof. vm_compute. repeat split. Qed.

(** C1 at a provider that refuses every request: the document of the
    example, with the fallback text in the place of the summary. *)
Lemma C1_failure_gives_fallback_witness :
  Checkout.agent_results <> []
  /\ (forall llm messages, fails (invoke (Mock.llm None) llm messages))
  /\ exists st1,
       _generate_executive_summary (Mock.llm None) Checkout.query
         Checkout.agent_results Checkout.metadata None Mock.state0
       = (Return FALLBACK_SUMMARY, st1)
       /\ format_investigation_response (Mock.llm None) Checkout.query
            Checkout.agent_results Checkout.metadata (Some Checkout.plan)
            None Mock.state0
          = (Return Outage.document, st1)
       /\ contains FALLBACK_SUMMARY Outage.document = true
       /\ (forall q r, _generate_fallback_summary q r = FALLBACK_SUMMARY).
Proof.
  assert (NE : Checkout.agent_results <> []) by discriminate.
  assert (D : forall llm messages,
             fails (invoke (Mock.llm None) llm messages)).
  { intros llm messages w.
    exists (Exception (py "connection refused")), (S w). reflexivity. }
  split; [exact NE|]. split; [exact D|].
  destruct (C1_failure_gives_fallback (Mock.llm None) Checkout.query
              Checkout.metadata (Some Checkout.plan) None Mock.state0
              NE (or_intror (or_intror (or_intror D))))
    as [st1 [G [F [I [document [rest [_ [_ [_ [K _]]]]]]]]]].
  exists st1. split; [exact G|]. split; [|split; [|exact I]].
  - rewrite F. f_equal.
  - vm_compute. reflexivity.
Defined.


(** C3 at the mapping whose only answer is the sentinel text. *)
Lemma C3_skipped_agents_contribute_nothing_witness :
  all_skipped Silent.agent_results
  /\ agent_lines (py "logs_agent") (Some (py "No response provided")) = [].
Proof.
  assert (H : all_skipped Silent.agent_results) by repeat constructor.
  split; [exact H|].
  destruct (@C3_skipped_agents_contribute_nothing Mock.ascii_tables nat
              unit unit (Mock.llm (Some (py "Summary."))) Checkout.query
              Silent.agent_results Checkout.metadata None None Mock.state0 H)
    as [s [st1 [_ [_ Hl]]]].
  apply Hl. left. reflexivity.
Defined.

(** C5 at [runbooks_agent] and its two numbered lines. *)
Lemma C5_runbook_steps_emitted_witness :
  In (py "runbooks_agent",
      Some (py "1. Check CPU" ++ [LF] ++ py "2. Check DB"))
    Checkout.agent_results
  /\ contains (py "runbooks") (lower (py "runbooks_agent"))
     || contains (py "operational") (lower (py "runbooks_agent")) = true
  /\ agent_lines (py "runbooks_agent")
       (Some (py "1. Check CPU" ++ [LF] ++ py "2. Check DB"))
     = [py "### Runbooks Agent"; []; STEPS_FOUND;
        py "1. Check CPU"; py "2. Check DB"; []].
Proof.
  split; [left; reflexivity|]. split; [reflexivity|].
  destruct (@C5_runbook_steps_emitted Mock.ascii_tables nat unit unit
              (Mock.llm (Some (py "Summary."))) Checkout.query
              Checkout.agent_results Checkout.metadata (Some Checkout.plan)
              None Mock.state0 (py "runbooks_agent")
              (py "1. Check CPU" ++ [LF] ++ py "2. Check DB")
              (or_introl eq_refl))
    as [s [st1 [b [a [_ [_ [Hs _]]]]]]].
  - discriminate.
  - discriminate.
  - reflexivity.
  - etransitivity; [apply Hs; vm_compute; discriminate|].
    vm_compute. reflexivity.
Defined.

(** C9 at the LLM that always answers "Summary.": the two calls give the
    same document although the client was asked twice. *)
Lemma C9_same_inputs_same_document_witness :
  deterministic (Mock.llm (Some (py "Summary.")))
  /\ (exists document,
        fst (example_run Checkout.agent_results Checkout.metadata
               (Some Checkout.plan) Mock.state0)
        = Return document
        /\ fst (example_run Checkout.agent_results Checkout.metadata
                  (Some Checkout.plan)
                  (snd (example_run Checkout.agent_results Checkout.metadata
                          (Some Checkout.plan) Mock.state0)))
           = Return document)
  /\ world (snd (example_run Checkout.agent_results Checkout.metadata
                   (Some Checkout.plan)
                   (snd (example_run Checkout.agent_results
                           Checkout.metadata (Some Checkout.plan)
                           Mock.state0))))
     = 2.
Proof.
  assert (H : deterministic (Mock.llm (Some (py "Summary."))))
    by (repeat split; repeat intro; reflexivity).
  split; [exact H|]. split; [|reflexivity].
  exact (proj1 (@C9_same_inputs_same_document Mock.ascii_tables nat unit
                  unit (Mock.llm (Some (py "Summary."))) Checkout.query
                  Checkout.agent_results Checkout.metadata
                  (Some Checkout.plan) None Mock.state0 H)).
Defined.


(** X5 at the same plan with [current_step = -1]: only the last step is
    listed, under the number 0. *)
Lemma X5_negative_step_lists_last_steps_witness :
  (-1 < 0)%Z
  /\ plan_truthy Checkout.plan = true
  /\ next_steps_section Checkout.plan (-1) 3
     = [NEXT_STEPS; []; py "0. Check network"; []].
Proof.
  split; [lia|]. split; [reflexivity|].
  etransitivity;
    [exact (proj1 (X5_negative_step_lists_last_steps Checkout.plan
                     (current_step := -1) eq_refl eq_refl))|].
  vm_compute. reflexivity.
Defined.

(** X11 at the plan and the query of the example. *)
Lemma X11_plan_approval_lines_round_trip_witness :
  one_line Checkout.query
  /\ Forall one_line (get (steps Checkout.plan) [])
  /\ split_lines (join [LF] (plan_approval_output Checkout.plan Checkout.query))
     = plan_approval_output Checkout.plan Checkout.query
  /\ List.length
       (split_lines
          (join [LF] (plan_approval_output Checkout.plan Checkout.query)))
     = 22.
Proof.
  assert (Hq : one_line Checkout.query) by now apply one_line_check.
  assert (Hs : Forall one_line (get (steps Checkout.plan) []))
    by (repeat constructor; now apply one_line_check).
  split; [exact Hq|]. split; [exact Hs|].
  destruct (@X11_plan_approval_lines_round_trip Mock.ascii_tables
              Checkout.plan Checkout.query Hq)
    as [E [_ L]].
  - now apply one_line_check.
  - now apply one_line_check.
  - exact Hs.
  - split; [exact E | exact L].
Defined.

(** X13 at a provider whose configuration has no token limit: the
    fallback text, and the LLM not asked. *)
Lemma X13_early_failure_costs_no_request_witness :
  Checkout.agent_results <> []
  /\ exists st1,
       _generate_executive_summary (counted Unlimited.collaborators)
         Checkout.query Checkout.agent_results Checkout.metadata None
         {| self := Mock.formatter; world := (0, 0) |}
       = (Return FALLBACK_SUMMARY, st1)
       /\ invocations st1 = 0.
Proof.
  split; [discriminate|].
  apply (@X13_early_failure_costs_no_request Mock.ascii_tables nat unit
           unit Unlimited.collaborators Checkout.query
           Checkout.agent_results Checkout.metadata None
           {| self := Mock.formatter; world := (0, 0) |}).
  - discriminate.
  - right. right. left. intros provider w cfg w' E.
    injection E as <- _. reflexivity.
Defined.

(** X14 at the example, with one preference record. *)
Lemma X14_preferences_follow_the_agent_blocks_witness :
  Checkout.agent_results <> []
  /\ [tt] <> []
  /\ _generate_executive_summary (Mock.llm (Some (py " Summary. ")))
       Checkout.query Checkout.agent_results Checkout.metadata (Some [tt])
       Mock.state0
     = (Return (py "Summary."), {| self := Mock.formatter; world := 1 |}).
Proof.
  split; [discriminate|]. split; [discriminate|].
  apply (@X14_preferences_follow_the_agent_blocks Mock.ascii_tables nat
           unit unit (Mock.llm (Some (py " Summary. "))) Checkout.query
           Checkout.agent_results Checkout.metadata [tt] Mock.state0
           0 0 0 0 0 1 {| max_tokens := Some 1000%Z |} 1000%Z tt
           (py "[]") (py "You are an SRE.")
           (Checkout.query ++ [LF]
              ++ join [LF]
                   (map context_block
                      (filter contributes Checkout.agent_results))
              ++ [LF; LF] ++ py "**User Preferences:**" ++ [LF]
              ++ py "[]" ++ [LF])
           (py " Summary. "));
    try discriminate; reflexivity.
Defined.
